(** * hermes: the data and materialization model of [datatypes.py]

    A shallow embedding of [src/datatypes/datatypes.py]: the label tables,
    [create_lmf], [Sample], [Translation], [Transcription] and
    [AppSettings], followed by the properties the specification states
    about them.

    Python dictionaries are finite maps ([gmap]); a dictionary literal
    keeps its items in source order next to the map, because the reversed
    tables are built by iterating [items()].  Methods that mutate [self]
    or touch the file system run in a state-and-exception monad over the
    object and a log of the calls made to the outside world. *)

From Stdlib Require Import ZArith Ascii String DecimalString.
From stdpp Require Import base option list strings gmap fin_maps.

Local Open Scope string_scope.
Local Open Scope Z_scope.

(** ** Python exceptions and fallible results *)

(** The built-in exceptions the interpreter raises for the operations
    [datatypes.py] performs, [OSError] for the libraries it calls, and
    the three error names of the specification's taxonomy.  The module
    defines no exception class of its own: [ConfigError], [MediaError]
    and [ImageError] occur nowhere in it. *)
Inductive exn : Set :=
| TypeError
| KeyError
| IndexError
| OSError
| ConfigError
| MediaError
| ImageError.

Inductive result (A : Type) : Type :=
| Ok (a : A)
| Raise (e : exn).
Arguments Ok {A} a.
Arguments Raise {A} e.

#[global] Instance exn_eq_dec : EqDecision exn.
Proof. solve_decision. Defined.

#[global] Instance result_ret : MRet result := fun _ a => Ok a.
#[global] Instance result_bind : MBind result := fun _ _ f m =>
  match m with
  | Ok a => f a
  | Raise e => Raise e
  end.

(** ** Python dictionaries and lists *)

(** A dictionary display [{k1: v1, k2: v2, ...}]: the items are stored
    from left to right, a later item replacing an earlier one with the
    same key. *)
Definition dict_of `{Countable K} {V : Type} (items : list (K * V)) : gmap K V :=
  foldl (fun d kv => <[kv.1 := kv.2]> d) ∅ items.

(** [d[k]]: a missing key raises [KeyError]. *)
Definition dict_getitem `{Countable K} {V : Type} (d : gmap K V) (k : K) : result V :=
  match d !! k with
  | Some v => Ok v
  | None => Raise KeyError
  end.

(** [l[i]] on a list: a negative index counts from the end, an index out
    of range raises [IndexError]. *)
Definition list_getitem {A : Type} (l : list A) (i : Z) : result A :=
  let n := Z.of_nat (length l) in
  let j := if i <? 0 then i + n else i in
  if (j <? 0) || (n <=? j) then Raise IndexError
  else match l !! Z.to_nat j with
       | Some a => Ok a
       | None => Raise IndexError
       end.

(** Truth value of an optional string ([None] and [''] are false). *)
Definition truthy_str (s : option string) : bool :=
  match s with
  | Some (String _ _) => true
  | _ => false
  end.

(** Truth value of an optional number ([None] and [0] are false). *)
Definition truthy_num (x : option Z) : bool :=
  match x with
  | Some n => negb (n =? 0)
  | None => false
  end.

(** ** Enumerations and lookup tables *)

(** [QMultimedia.EncodingQuality] of PyQt5, which [datatypes.py] imports:
    five constants with the integer values 0 to 4, hashed and compared by
    value. *)
Module QMultimedia.
Inductive EncodingQuality : Set :=
| VeryLowQuality
| LowQuality
| NormalQuality
| HighQuality
| VeryHighQuality.

Definition value (q : EncodingQuality) : Z :=
  match q with
  | VeryLowQuality => 0
  | LowQuality => 1
  | NormalQuality => 2
  | HighQuality => 3
  | VeryHighQuality => 4
  end.

Definition of_value (z : Z) : option EncodingQuality :=
  match z with
  | 0 => Some VeryLowQuality
  | 1 => Some LowQuality
  | 2 => Some NormalQuality
  | 3 => Some HighQuality
  | 4 => Some VeryHighQuality
  | _ => None
  end.

#[global] Instance eq_dec : EqDecision EncodingQuality.
Proof. solve_decision. Defined.

#[global] Program Instance countable : Countable EncodingQuality :=
  inj_countable value of_value _.
Next Obligation. by intros []. Qed.
End QMultimedia.
Import QMultimedia.

Definition AUDIO_QUALITY_items : list (string * EncodingQuality) :=
  [ ("Very Low", VeryLowQuality);
    ("Low", LowQuality);
    ("Normal", NormalQuality);
    ("High", HighQuality);
    ("Very High", VeryHighQuality) ].

Definition AUDIO_QUALITY : gmap string EncodingQuality :=
  dict_of AUDIO_QUALITY_items.

(** [{v: k for k, v in AUDIO_QUALITY.items()}] *)
Definition AUDIO_QUALITY_REV : gmap EncodingQuality string :=
  dict_of ((fun kv => (kv.2, kv.1)) <$> AUDIO_QUALITY_items).

Inductive OperationMode : Set :=
| ELAN
| SCRATCH.

Definition OperationMode_value (m : OperationMode) : Z :=
  match m with
  | ELAN => 0
  | SCRATCH => 1
  end.

Inductive OutputMode : Set :=
| OPIE
| LMF
| DICT.

Definition OutputMode_value (m : OutputMode) : Z :=
  match m with
  | OPIE => 0
  | LMF => 1
  | DICT => 2
  end.

#[global] Instance OutputMode_eq_dec : EqDecision OutputMode.
Proof. solve_decision. Defined.

(** [list(OutputMode)]: the members in definition order. *)
Definition list_OutputMode : list OutputMode := [OPIE; LMF; DICT].

Definition OUTPUT_MODE_NAMES_items : list (Z * string) :=
  [ (0, "OPIE File Structure");
    (1, "Language Manifest File (JSON)");
    (2, "Generic Dictionary (CSV)") ].

Definition OUTPUT_MODE_NAMES : gmap Z string :=
  dict_of OUTPUT_MODE_NAMES_items.

(** [{v: k for k, v in OUTPUT_MODE_NAMES.items()}] *)
Definition OUTPUT_MODES_REV : gmap string Z :=
  dict_of ((fun kv => (kv.2, kv.1)) <$> OUTPUT_MODE_NAMES_items).

(** ** AppSettings *)

Module AppSettings.
Record t : Type := mk {
  output_format : OutputMode;
  microphone : string;
  audio_quality : EncodingQuality;
  ffmpeg_location : option string
}.

(** [AppSettings.__init__] with all four arguments given. *)
Definition __init__ (output_format : string) (microphone : string)
    (audio_quality : string) (ffmpeg_location : option string) : result t :=
  i ← dict_getitem OUTPUT_MODES_REV output_format;
  mode ← list_getitem list_OutputMode i;
  quality ← dict_getitem AUDIO_QUALITY audio_quality;
  mret (mk mode microphone quality ffmpeg_location).

(** The default of [output_format], [OUTPUT_MODE_NAMES[0]], evaluated
    when the [def] statement is executed. *)
Definition default_output_format : result string :=
  dict_getitem OUTPUT_MODE_NAMES 0.

(** [AppSettings()]: every argument takes its default. *)
Definition __init__defaults : result t :=
  fmt ← default_output_format;
  __init__ fmt "Default" "Normal" None.
End AppSettings.

(** ** The outside world

    [datatypes.py] calls into [tempfile], [uuid], [datetime], pydub,
    PIL and [resizeimage].  Each such call is appended to a log, and the
    library's answer is a function of the log so far (the call included)
    and of the objects passed: any deterministic behaviour of the
    libraries and of the file system is an instance of [Platform]. *)

Inductive call : Set :=
| Call_mkdtemp
| Call_uuid4
| Call_now
| Call_getitem (start end_ : option Z)
| Call_export (path format : string)
| Call_from_wav (path : string)
| Call_open (path mode : string)
| Call_Image_open (path : string)
| Call_Image_open_file
| Call_resize_contain (width height : Z)
| Call_convert (mode : string)
| Call_save (path format : string).

#[global] Instance call_eq_dec : EqDecision call.
Proof. solve_decision. Defined.

Abbreviation World := (list call).

(** A [uuid.UUID] object, carried as its text form [str(u)]. *)
Inductive UUID : Set := mkUUID (text : string).

Definition str_of_UUID (u : UUID) : string :=
  match u with mkUUID s => s end.

Class Platform : Type := {
  AudioSegment : Type;
  (** [len(segment)], its duration in milliseconds; a segment of length
      0 is false. *)
  audio_len : AudioSegment -> Z;
  (** [segment[start:end]] *)
  audio_getitem : AudioSegment -> option Z -> option Z -> result AudioSegment;
  (** [segment.export(path, format=...)] *)
  audio_export : World -> AudioSegment -> result unit;
  (** [AudioSegment.from_wav(path)] *)
  audio_from_wav : World -> result AudioSegment;
  (** [tempfile.mkdtemp()] *)
  tempfile_mkdtemp : World -> result string;
  (** [uuid4()] *)
  uuid_uuid4 : World -> UUID;
  (** [str(datetime.now())] *)
  datetime_now : World -> string;
  File : Type;
  (** [open(path, mode)] *)
  io_open : World -> result File;
  PILImage : Type;
  (** [Image.open(path)] and [Image.open(file)] *)
  Image_open : World -> result PILImage;
  Image_open_file : World -> File -> result PILImage;
  (** [image.format] *)
  image_format : PILImage -> option string;
  (** [resizeimage.resize_contain(image, [width, height])] *)
  resize_contain : PILImage -> Z -> Z -> result PILImage;
  (** [image.convert(mode)] *)
  image_convert : PILImage -> string -> result PILImage;
  (** [image.save(path, format)] *)
  image_save : World -> PILImage -> result unit
}.

(** ** Methods: state of [self] and of the world, with exceptions *)

Definition M (Self A : Type) : Type := Self -> World -> result A * Self * World.

#[global] Instance M_ret {Self} : MRet (M Self) :=
  fun _ a self w => (Ok a, self, w).

#[global] Instance M_bind {Self} : MBind (M Self) := fun _ _ f m self w =>
  match m self w with
  | (Ok a, self', w') => f a self' w'
  | (Raise e, self', w') => (Raise e, self', w')
  end.

Definition self_get {Self} : M Self Self :=
  fun self w => (Ok self, self, w).

Definition self_set {Self} (f : Self -> Self) : M Self unit :=
  fun self w => (Ok tt, f self, w).

Definition lift {Self A} (r : result A) : M Self A :=
  fun self w => (r, self, w).

(** A call to a library: logged, then answered. *)
Definition extern {Self A} (c : call) (answer : World -> result A) : M Self A :=
  fun self w => let w' := (w ++ [c])%list in (answer w', self, w').

(** [if cond: body] with no [else]. *)
Definition when {Self} (cond : bool) (body : M Self unit) : M Self unit :=
  if cond then body else mret tt.

(** The calls that write an image. *)
Definition is_save (c : call) : bool :=
  match c with
  | Call_save _ _ => true
  | _ => false
  end.

(** Runs the monad's plumbing in the goal and the hypotheses. *)
Ltac run :=
  unfold mbind, M_bind, mret, M_ret, self_get, self_set, lift, extern, when in *;
  simpl in *.

(** ** Strings and paths *)

(** [str(n)] for an integer. *)
Definition str_of_Z (n : Z) : string :=
  NilZero.string_of_int (Z.to_int n).

Definition starts_with_sep (s : string) : bool :=
  match s with
  | String c _ => Ascii.eqb c "/"%char
  | EmptyString => false
  end.

Fixpoint ends_with_sep (s : string) : bool :=
  match s with
  | EmptyString => false
  | String c EmptyString => Ascii.eqb c "/"%char
  | String _ rest => ends_with_sep rest
  end.

(** [os.path.join(a, b)] (posixpath): [b] alone when it is absolute,
    otherwise [a] and [b] with one separator between them unless [a] is
    empty or already ends with one. *)
Definition os_path_join (a b : string) : string :=
  if starts_with_sep b then b
  else if negb (truthy_str (Some a)) || ends_with_sep a then a ++ b
  else a ++ "/" ++ b.

(** The operands of [+] in [Transcription.set_image]. *)
Inductive pyval : Set :=
| PyNone
| PyStr (s : string)
| PyUUID (u : UUID).

Definition pyval_of_str (s : option string) : pyval :=
  match s with
  | Some s => PyStr s
  | None => PyNone
  end.

(** [a + b]: defined between two strings; [str.__add__] rejects any
    other operand and neither [UUID] nor [NoneType] defines [__add__]
    or [__radd__], so every other pair raises [TypeError]. *)
Definition py_add (a b : pyval) : result pyval :=
  match a, b with
  | PyStr x, PyStr y => Ok (PyStr (x ++ y))
  | _, _ => Raise TypeError
  end.

(** A value used where a path string is required. *)
Definition as_path (v : pyval) : result string :=
  match v with
  | PyStr s => Ok s
  | _ => Raise TypeError
  end.

(** [a - b] where [a] may be [None]. *)
Definition num_sub (a : option Z) (b : Z) : result Z :=
  match a with
  | Some x => Ok (x - b)
  | None => Raise TypeError
  end.

(** ** Module constants and [create_lmf] *)

Definition MATCH_ERROR_MARGIN : Z := 1.

(** The values stored in a language manifest. *)
#[local] Set Warnings "-register-all".
Inductive lmf_value : Set :=
| LmfStr (s : string)
| LmfList (items : list lmf_value).

Definition create_lmf `{Platform} (transcription_language translation_language
    author : string) (w : World) : gmap string lmf_value * World :=
  let w' := (w ++ [Call_now])%list in
  (dict_of
     [ ("transcription-language", LmfStr transcription_language);
       ("translation-language", LmfStr translation_language);
       ("author", LmfStr author);
       ("created", LmfStr (datetime_now w'));
       ("words", LmfList []) ],
   w').

(** ** Sample

    Times are whole milliseconds, the unit of ELAN's time slots and of
    pydub's slicing.  The source annotates them [float]; fractions of a
    millisecond are outside this model, and a property that holds only
    for whole milliseconds says so. *)

Module Sample.
Section Sample.
Context `{Platform}.

Record t : Type := mk {
  index : Z;
  start : option Z;
  end_ : option Z;
  recorded : bool;
  audio_file : option AudioSegment;
  sample_path : option string;
  sample_object : option AudioSegment
}.

Definition __init__ (index : Z) (start end_ : option Z)
    (audio_file : option AudioSegment) (sample_path : option string)
    (sample_object : option AudioSegment) : t :=
  mk index start end_ false audio_file sample_path sample_object.

Definition set_sample_path (v : option string) (self : t) : t :=
  mk (index self) (start self) (end_ self) (recorded self)
     (audio_file self) v (sample_object self).

Definition set_sample_object (v : option AudioSegment) (self : t) : t :=
  mk (index self) (start self) (end_ self) (recorded self)
     (audio_file self) (sample_path self) v.

(** [audio_file[start:end]]: subscripting [None] raises [TypeError]
    before pydub is reached. *)
Definition subscript (audio_file : option AudioSegment)
    (start end_ : option Z) : M t AudioSegment :=
  match audio_file with
  | None => lift (Raise TypeError)
  | Some a => extern (Call_getitem start end_)
                     (fun _ => audio_getitem a start end_)
  end.

Definition get_sample_file_path : M t (option string) :=
  self ← self_get;
  if negb (truthy_str (sample_path self)) then
    sample_file ← subscript (audio_file self) (start self) (end_ self);
    _ ← self_set (set_sample_object (Some sample_file));
    temporary_folder ← extern Call_mkdtemp tempfile_mkdtemp;
    let path := os_path_join temporary_folder (str_of_Z (index self) ++ ".wav") in
    _ ← self_set (set_sample_path (Some path));
    _ ← extern (Call_export path "wav") (fun w => audio_export w sample_file);
    self ← self_get;
    mret (sample_path self)
  else
    mret (sample_path self).

Definition get_sample_file_object : M t (option AudioSegment) :=
  _ ← get_sample_file_path;
  self ← self_get;
  mret (sample_object self).

Definition set_sample (path : string) : M t unit :=
  _ ← self_set (set_sample_path (Some path));
  segment ← extern (Call_from_wav path) audio_from_wav;
  self_set (set_sample_object (Some segment)).
End Sample.
End Sample.

(** ** Translation *)

Module Translation.
Record t : Type := mk {
  index : Z;
  translation : string;
  start : Z;
  end_ : Z
}.

Definition __init__ (index : Z) (translation : string) (start end_ : Z) : t :=
  mk index translation start end_.
End Translation.

(** ** Transcription *)

Module Transcription.
Section Transcription.
Context `{Platform}.

Record t : Type := mk {
  index : Z;
  transcription : string;
  translation : option string;
  image : option string;
  preview_image : option string;
  id : UUID;
  temp_file : option string;
  sample : option Sample.t
}.

Definition set_image_field (v : option string) (self : t) : t :=
  mk (index self) (transcription self) (translation self) v
     (preview_image self) (id self) (temp_file self) (sample self).

Definition set_preview_image (v : option string) (self : t) : t :=
  mk (index self) (transcription self) (translation self) (image self)
     v (id self) (temp_file self) (sample self).

Definition set_temp_file (v : option string) (self : t) : t :=
  mk (index self) (transcription self) (translation self) (image self)
     (preview_image self) (id self) v (sample self).

Definition set_sample_field (v : option Sample.t) (self : t) : t :=
  mk (index self) (transcription self) (translation self) (image self)
     (preview_image self) (id self) (temp_file self) v.

(** Truth value of [media]: [None] and a segment of length 0 are false. *)
Definition truthy_media (media : option AudioSegment) : bool :=
  match media with
  | Some a => negb (audio_len a =? 0)
  | None => false
  end.

Definition __init__ (index : Z) (transcription : string)
    (translation image : option string) (start end_ : option Z)
    (media : option AudioSegment) (w : World) : t * World :=
  let w' := (w ++ [Call_uuid4])%list in
  let id := uuid_uuid4 w' in
  let sample :=
    if negb (truthy_media media && truthy_num start && truthy_num end_)
    then None
    else Some (Sample.__init__ index start end_ media None None) in
  (mk index transcription translation image None id None sample, w').

Definition time_matches_translation (self : t) (translation : Translation.t)
  : result bool :=
  match sample self with
  | None => Ok false
  | Some s =>
      d_start ← num_sub (Sample.start s) (Translation.start translation);
      if Z.abs d_start <? MATCH_ERROR_MARGIN then
        d_end ← num_sub (Sample.end_ s) (Translation.end_ translation);
        if Z.abs d_end <? MATCH_ERROR_MARGIN then Ok true else Ok false
      else Ok false
  end.

Definition get_temp_file : M t (option string) :=
  self ← self_get;
  _ ← when (negb (truthy_str (temp_file self)))
        (folder ← extern Call_mkdtemp tempfile_mkdtemp;
         self_set (set_temp_file (Some folder)));
  self ← self_get;
  mret (temp_file self).

Definition set_image (path_to_image : string) : M t unit :=
  image ← extern (Call_Image_open path_to_image) Image_open;
  folder ← get_temp_file;
  self ← self_get;
  prefix ← lift (py_add (pyval_of_str folder) (PyUUID (id self)));
  joined ← lift (py_add prefix (PyStr ".png"));
  new_image_path ← lift (as_path joined);
  _ ← extern (Call_save new_image_path "PNG") (fun w => image_save w image);
  self_set (set_image_field (Some path_to_image)).

Definition set_blank_sample : M t unit :=
  self_set (fun self =>
    set_sample_field (Some (Sample.__init__ (index self) None None None None None)) self).

(** [open(self.image, 'r+b')]: a [None] path raises [TypeError]. *)
Definition open_image (path : option string) : M t File :=
  match path with
  | None => lift (Raise TypeError)
  | Some p => extern (Call_open p "r+b") io_open
  end.

(** [os.path.join(folder, name)] where [folder] may be [None]. *)
Definition join_folder (folder : option string) (name : string) : result string :=
  match folder with
  | Some f => Ok (os_path_join f name)
  | None => Raise TypeError
  end.

Definition refresh_preview_image : M t (option string) :=
  folder ← get_temp_file;
  self ← self_get;
  preview_path ← lift (join_folder folder (str_of_UUID (id self) ++ ".png"));
  file ← open_image (image self);
  image ← extern Call_Image_open_file (fun w => Image_open_file w file);
  preview ← extern (Call_resize_contain 250 250)
                   (fun _ => resize_contain image 250 250);
  _ ← when (bool_decide (image_format image = Some "RBG"))
        (_ ← extern (Call_convert "RGBA") (fun _ => image_convert preview "RGBA");
         mret tt);
  _ ← extern (Call_save preview_path "PNG") (fun w => image_save w preview);
  _ ← self_set (set_preview_image (Some preview_path));
  self ← self_get;
  mret (preview_image self).

Definition get_preview_image : M t (option string) :=
  self ← self_get;
  _ ← when (truthy_str (image self) && negb (truthy_str (preview_image self)))
        (_ ← refresh_preview_image; mret tt);
  self ← self_get;
  mret (preview_image self).
End Transcription.
End Transcription.

(** ** ConverterData *)

Module ConverterData.
Section ConverterData.
Context `{Platform}.
(** The parsed ELAN document ([pympi]'s [Eaf]); never inspected here. *)
Context (EafObject : Type).

Record t : Type := mk {
  elan_file : option string;
  export_location : option string;
  eaf_object : option EafObject;
  audio_file : option AudioSegment;
  transcriptions : list Transcription.t;
  translations : list Translation.t;
  temp_file : option string;
  mode : option OperationMode;
  lmf : gmap string lmf_value
}.

Definition __init__ : t :=
  mk None None None None [] [] None None ∅.

Definition set_temp_file (v : option string) (self : t) : t :=
  mk (elan_file self) (export_location self) (eaf_object self)
     (audio_file self) (transcriptions self) (translations self) v
     (mode self) (lmf self).

Definition get_temp_file : M t (option string) :=
  self ← self_get;
  _ ← when (negb (truthy_str (temp_file self)))
        (folder ← extern Call_mkdtemp tempfile_mkdtemp;
         self_set (set_temp_file (Some folder)));
  self ← self_get;
  mret (temp_file self).
End ConverterData.
End ConverterData.

(** ** A reference platform

    An in-memory double of the libraries, used to run the methods on
    concrete inputs.  Temporary folders and identifiers are numbered by
    the calls made so far; writing ([export], [save]) succeeds when
    [writable] and raises [OSError] otherwise. *)

Module Reference.
Definition count (c : call) (w : World) : Z :=
  Z.of_nat (length (filter (fun c' => c' = c) w)).

Definition write (writable : bool) : result unit :=
  if writable then Ok tt else Raise OSError.

(** A bound below 0 counts from the end of the segment. *)
Definition position (len bound : Z) : Z :=
  if bound <? 0 then len - Z.abs bound else bound.

(** The length of [segment[start:end]] for a segment of length [len]:
    a missing bound is the beginning or the end of the segment, both
    bounds are clamped to [len], a negative bound counts from the end,
    and a window that ends before it starts is empty.  (Bounds further
    before the beginning than the segment is long are not used here.) *)
Definition slice (len : Z) (start end_ : option Z) : Z :=
  let s := position len (Z.min (default 0 start) len) in
  let e := position len (Z.min (default len end_) len) in
  Z.max 0 (e - s).

Definition platform (writable : bool) : Platform := {|
  AudioSegment := Z;
  audio_len := fun a => a;
  audio_getitem := fun a start end_ => Ok (slice a start end_);
  audio_export := fun _ _ => write writable;
  audio_from_wav := fun _ => Ok 1000;
  tempfile_mkdtemp := fun w => Ok ("/tmp/tmp" ++ str_of_Z (count Call_mkdtemp w));
  uuid_uuid4 := fun w => mkUUID ("uuid" ++ str_of_Z (count Call_uuid4 w));
  datetime_now := fun w => "2019-01-01 00:00:0" ++ str_of_Z (count Call_now w);
  File := unit;
  io_open := fun _ => Ok tt;
  PILImage := string;
  Image_open := fun _ => Ok "PNG";
  Image_open_file := fun _ _ => Ok "PNG";
  image_format := fun image => Some image;
  resize_contain := fun image _ _ => Ok image;
  image_convert := fun image _ => Ok image;
  image_save := fun _ _ => write writable
|}.
(** A platform on which every library call that can fail raises
    [OSError]. *)
Definition broken : Platform := {|
  AudioSegment := Z;
  audio_len := fun a => a;
  audio_getitem := fun _ _ _ => Raise OSError;
  audio_export := fun _ _ => Raise OSError;
  audio_from_wav := fun _ => Raise OSError;
  tempfile_mkdtemp := fun _ => Raise OSError;
  uuid_uuid4 := fun w => mkUUID ("uuid" ++ str_of_Z (count Call_uuid4 w));
  datetime_now := fun w => "2019-01-01 00:00:0" ++ str_of_Z (count Call_now w);
  File := unit;
  io_open := fun _ => Raise OSError;
  PILImage := string;
  Image_open := fun _ => Raise OSError;
  Image_open_file := fun _ _ => Raise OSError;
  image_format := fun image => Some image;
  resize_contain := fun _ _ _ => Raise OSError;
  image_convert := fun _ _ => Raise OSError;
  image_save := fun _ _ => Raise OSError
|}.
End Reference.

(** * Properties *)

(** ** Label tables *)

Lemma OUTPUT_MODE_NAMES_lookup (i : Z) (l : string) :
  OUTPUT_MODE_NAMES !! i = Some l ↔
  (i = 0 ∧ l = "OPIE File Structure") ∨
  (i = 1 ∧ l = "Language Manifest File (JSON)") ∨
  (i = 2 ∧ l = "Generic Dictionary (CSV)").
Proof.
  unfold OUTPUT_MODE_NAMES, OUTPUT_MODE_NAMES_items, dict_of; simpl.
  rewrite !lookup_insert_Some, lookup_empty. intuition (subst; congruence).
Qed.

Lemma OUTPUT_MODES_REV_lookup (l : string) (i : Z) :
  OUTPUT_MODES_REV !! l = Some i ↔
  (i = 0 ∧ l = "OPIE File Structure") ∨
  (i = 1 ∧ l = "Language Manifest File (JSON)") ∨
  (i = 2 ∧ l = "Generic Dictionary (CSV)").
Proof.
  unfold OUTPUT_MODES_REV, OUTPUT_MODE_NAMES_items, dict_of; simpl.
  rewrite !lookup_insert_Some, lookup_empty. intuition (subst; congruence).
Qed.

Lemma AUDIO_QUALITY_lookup (l : string) (q : EncodingQuality) :
  AUDIO_QUALITY !! l = Some q ↔
  (l = "Very Low" ∧ q = VeryLowQuality) ∨
  (l = "Low" ∧ q = LowQuality) ∨
  (l = "Normal" ∧ q = NormalQuality) ∨
  (l = "High" ∧ q = HighQuality) ∨
  (l = "Very High" ∧ q = VeryHighQuality).
Proof.
  unfold AUDIO_QUALITY, AUDIO_QUALITY_items, dict_of; simpl.
  rewrite !lookup_insert_Some, lookup_empty. intuition (subst; congruence).
Qed.

Lemma AUDIO_QUALITY_REV_lookup (q : EncodingQuality) (l : string) :
  AUDIO_QUALITY_REV !! q = Some l ↔
  (l = "Very Low" ∧ q = VeryLowQuality) ∨
  (l = "Low" ∧ q = LowQuality) ∨
  (l = "Normal" ∧ q = NormalQuality) ∨
  (l = "High" ∧ q = HighQuality) ∨
  (l = "Very High" ∧ q = VeryHighQuality).
Proof.
  unfold AUDIO_QUALITY_REV, AUDIO_QUALITY_items, dict_of; simpl.
  rewrite !lookup_insert_Some, lookup_empty. intuition (subst; congruence).
Qed.

Lemma dict_getitem_Some `{Countable K} {V : Type} (d : gmap K V) (k : K) (v : V) :
  d !! k = Some v → dict_getitem d k = Ok v.
Proof. intros Hk. unfold dict_getitem. rewrite Hk. reflexivity. Qed.

Lemma dict_getitem_None `{Countable K} {V : Type} (d : gmap K V) (k : K) :
  d !! k = None → dict_getitem d k = Raise KeyError.
Proof. intros Hk. unfold dict_getitem. rewrite Hk. reflexivity. Qed.

(** The numbers in [OUTPUT_MODES_REV] are positions in [list(OutputMode)]. *)
Lemma OUTPUT_MODES_REV_member (l : string) (i : Z) :
  OUTPUT_MODES_REV !! l = Some i →
  ∃ m, list_getitem list_OutputMode i = Ok m ∧ OutputMode_value m = i.
Proof.
  intros Hl. apply OUTPUT_MODES_REV_lookup in Hl.
  destruct Hl as [[-> _] | [[-> _] | [-> _]]];
    [exists OPIE | exists LMF | exists DICT]; split; reflexivity.
Qed.

(** C3. The label tables are inverse to each other and total on their
    closed sets: a label is sent to an internal value by the forward
    table ([OUTPUT_MODES_REV], [AUDIO_QUALITY]) exactly when the reverse
    table ([OUTPUT_MODE_NAMES], [AUDIO_QUALITY_REV]) sends that value
    back to the label; the output-mode numbers are exactly the positions
    of the [OutputMode] members, and every member and every quality
    level has a label. *)
Theorem label_tables_round_trip :
  (∀ (l : string) (i : Z),
      OUTPUT_MODES_REV !! l = Some i ↔ OUTPUT_MODE_NAMES !! i = Some l) ∧
  (∀ (l : string) (i : Z),
      OUTPUT_MODES_REV !! l = Some i →
      ∃ m, list_getitem list_OutputMode i = Ok m ∧ OutputMode_value m = i) ∧
  (∀ m : OutputMode, is_Some (OUTPUT_MODE_NAMES !! OutputMode_value m)) ∧
  (∀ (l : string) (q : EncodingQuality),
      AUDIO_QUALITY !! l = Some q ↔ AUDIO_QUALITY_REV !! q = Some l) ∧
  (∀ q : EncodingQuality, is_Some (AUDIO_QUALITY_REV !! q)).
Proof.
  repeat split.
  - rewrite OUTPUT_MODES_REV_lookup, OUTPUT_MODE_NAMES_lookup; tauto.
  - rewrite OUTPUT_MODES_REV_lookup, OUTPUT_MODE_NAMES_lookup; tauto.
  - apply OUTPUT_MODES_REV_member.
  - intros m.
    destruct m; eexists; apply OUTPUT_MODE_NAMES_lookup; simpl; eauto.
  - rewrite AUDIO_QUALITY_lookup, AUDIO_QUALITY_REV_lookup; tauto.
  - rewrite AUDIO_QUALITY_lookup, AUDIO_QUALITY_REV_lookup; tauto.
  - intros q.
    destruct q; eexists; apply AUDIO_QUALITY_REV_lookup; eauto 10.
Qed.

Lemma label_tables_round_trip_witness :
  OUTPUT_MODE_NAMES !! 2 = Some "Generic Dictionary (CSV)" ∧
  AUDIO_QUALITY_REV !! HighQuality = Some "High".
Proof.
  destruct label_tables_round_trip as (Hmode & _ & _ & Hquality & _).
  split.
  - apply (proj1 (Hmode "Generic Dictionary (CSV)" 2)). vm_compute. reflexivity.
  - apply (proj1 (Hquality "High" HighQuality)). vm_compute. reflexivity.
Defined.

(** ** AppSettings *)

(** C10. [AppSettings()] succeeds with the OPIE output format, the
    microphone 'Default', the Normal quality level and no tool location;
    the default labels are the canonical labels of these values. *)
Theorem AppSettings_defaults :
  AppSettings.__init__defaults =
    Ok (AppSettings.mk OPIE "Default" NormalQuality None) ∧
  AppSettings.default_output_format = Ok "OPIE File Structure" ∧
  OUTPUT_MODE_NAMES !! OutputMode_value OPIE = Some "OPIE File Structure" ∧
  OUTPUT_MODES_REV !! "OPIE File Structure" = Some (OutputMode_value OPIE) ∧
  AUDIO_QUALITY !! "Normal" = Some NormalQuality.
Proof. repeat split; vm_compute; reflexivity. Qed.

(** C5, as the code has it.  A label missing from its table makes the
    construction fail with the [KeyError] of the dictionary lookup (the
    module has no [ConfigError]); with both labels in their tables the
    construction succeeds with the [OutputMode] member at the position
    the output-format table gives and the quality level the
    audio-quality table gives, the other two arguments stored as
    given. *)
Theorem AppSettings_init_labels (fmt mic quality : string) (ffmpeg : option string) :
  (OUTPUT_MODES_REV !! fmt = None ∨ AUDIO_QUALITY !! quality = None →
   AppSettings.__init__ fmt mic quality ffmpeg = Raise KeyError) ∧
  (∀ (i : Z) (q : EncodingQuality),
      OUTPUT_MODES_REV !! fmt = Some i →
      AUDIO_QUALITY !! quality = Some q →
      ∃ m, OutputMode_value m = i ∧
           OUTPUT_MODE_NAMES !! OutputMode_value m = Some fmt ∧
           AUDIO_QUALITY_REV !! q = Some quality ∧
           AppSettings.__init__ fmt mic quality ffmpeg =
             Ok (AppSettings.mk m mic q ffmpeg)).
Proof.
  split.
  - intros Hmissing. unfold AppSettings.__init__.
    destruct (OUTPUT_MODES_REV !! fmt) as [i|] eqn:Hfmt.
    + destruct Hmissing as [?|Hq]; [discriminate|].
      destruct (OUTPUT_MODES_REV_member fmt i Hfmt) as (m & Hm & _).
      rewrite (dict_getitem_Some _ _ _ Hfmt). simpl. rewrite Hm. simpl.
      rewrite (dict_getitem_None _ _ Hq). reflexivity.
    + rewrite (dict_getitem_None _ _ Hfmt). reflexivity.
  - intros i q Hfmt Hq.
    destruct (OUTPUT_MODES_REV_member fmt i Hfmt) as (m & Hm & Hv).
    exists m. split; [exact Hv|]. split.
    + rewrite Hv. apply OUTPUT_MODE_NAMES_lookup.
      apply OUTPUT_MODES_REV_lookup in Hfmt. tauto.
    + split.
      * apply AUDIO_QUALITY_REV_lookup. apply AUDIO_QUALITY_lookup in Hq. tauto.
      * unfold AppSettings.__init__.
        rewrite (dict_getitem_Some _ _ _ Hfmt). simpl. rewrite Hm. simpl.
        rewrite (dict_getitem_Some _ _ _ Hq). reflexivity.
Qed.

Lemma AppSettings_init_labels_witness :
  AppSettings.__init__ "bogus" "Default" "Normal" None = Raise KeyError ∧
  ∃ m, OutputMode_value m = 2 ∧
       OUTPUT_MODE_NAMES !! OutputMode_value m = Some "Generic Dictionary (CSV)" ∧
       AUDIO_QUALITY_REV !! HighQuality = Some "High" ∧
       AppSettings.__init__ "Generic Dictionary (CSV)" "Default" "High" None =
         Ok (AppSettings.mk m "Default" HighQuality None).
Proof.
  split.
  - apply (proj1 (AppSettings_init_labels "bogus" "Default" "Normal" None)).
    left. vm_compute. reflexivity.
  - apply (proj2 (AppSettings_init_labels "Generic Dictionary (CSV)" "Default"
                    "High" None) 2 HighQuality); vm_compute; reflexivity.
Defined.

(** C5 as stated fails: the label 'bogus' is in neither table, and the
    construction raises [KeyError], not [ConfigError]. *)
Lemma AppSettings_bogus_label_not_ConfigError :
  OUTPUT_MODES_REV !! "bogus" = None ∧
  AppSettings.__init__ "bogus" "Default" "Normal" None = Raise KeyError ∧
  AppSettings.__init__ "bogus" "Default" "Normal" None ≠ Raise ConfigError.
Proof.
  split; [|split].
  - vm_compute. reflexivity.
  - vm_compute. reflexivity.
  - vm_compute. discriminate.
Qed.

(** ** create_lmf *)

(** C9. [create_lmf] reads the clock once and returns a record with
    exactly the five keys of a manifest: the two languages and the
    author as given, under 'created' the text of [datetime.now()] as
    read by this call, and an empty list of words; two calls with the
    same arguments differ at most in 'created'. *)
Theorem create_lmf_manifest `{Platform} (transcription_language
    translation_language author : string) (w : World) :
  let lmf := (create_lmf transcription_language translation_language author w).1 in
  lmf !! "transcription-language" = Some (LmfStr transcription_language) ∧
  lmf !! "translation-language" = Some (LmfStr translation_language) ∧
  lmf !! "author" = Some (LmfStr author) ∧
  lmf !! "words" = Some (LmfList []) ∧
  lmf !! "created" = Some (LmfStr (datetime_now (w ++ [Call_now])%list)) ∧
  (create_lmf transcription_language translation_language author w).2 =
    (w ++ [Call_now])%list ∧
  dom lmf = {[ "transcription-language"; "translation-language"; "author";
               "created"; "words" ]} ∧
  ∀ w2 : World,
    delete "created"
      (create_lmf transcription_language translation_language author w2).1 =
    delete "created" lmf.
Proof.
  unfold create_lmf, dict_of; simpl.
  split_and!.
  - by simplify_map_eq.
  - by simplify_map_eq.
  - by simplify_map_eq.
  - by simplify_map_eq.
  - by simplify_map_eq.
  - reflexivity.
  - rewrite !dom_insert_L, dom_empty_L. set_solver.
  - intros w2. apply map_eq. intros k.
    destruct (decide (k = "created")) as [->|Hk].
    + by rewrite !lookup_delete_eq.
    + rewrite !lookup_delete_ne by done.
      destruct (decide (k = "words")) as [->|Hw].
      * by rewrite !lookup_insert_eq.
      * rewrite !(lookup_insert_ne _ "words") by done.
        by rewrite !(lookup_insert_ne _ "created") by done.
Qed.

(** ** Transcription: construction and time matching *)

Section TranscriptionProperties.
Context `{Platform}.

(** The sample a new Transcription owns: present exactly when all of
    [media], [start] and [end] are true values. *)
Lemma init_sample (index : Z) (transcription : string)
    (translation image : option string) (start end_ : option Z)
    (media : option AudioSegment) (w : World) :
  Transcription.sample
    (Transcription.__init__ index transcription translation image
       start end_ media w).1 =
  if Transcription.truthy_media media && truthy_num start && truthy_num end_
  then Some (Sample.mk index start end_ false media None None)
  else None.
Proof.
  unfold Transcription.__init__; simpl.
  destruct (Transcription.truthy_media media && truthy_num start && truthy_num end_);
    reflexivity.
Qed.

(** A window that starts (or ends) at 0 ms gives no sample. *)
Lemma init_sample_zero (index : Z) (transcription : string)
    (translation image : option string) (start end_ : option Z)
    (media : option AudioSegment) (w : World) :
  start = Some 0 ∨ end_ = Some 0 →
  Transcription.sample
    (Transcription.__init__ index transcription translation image
       start end_ media w).1 = None.
Proof.
  intros Hzero. rewrite init_sample.
  destruct Hzero as [-> | ->]; simpl;
    rewrite ?andb_false_r; reflexivity.
Qed.

(** Without a sample nothing matches. *)
Lemma time_matches_no_sample (self : Transcription.t) (translation : Translation.t) :
  Transcription.sample self = None →
  Transcription.time_matches_translation self translation = Ok false.
Proof. intros Hs. unfold Transcription.time_matches_translation. by rewrite Hs. Qed.

(** With a timed sample the answer is decided by the margin
    [MATCH_ERROR_MARGIN] = 1 applied to the millisecond differences:
    on integer timestamps both ends have to coincide. *)
Lemma time_matches_margin (self : Transcription.t) (translation : Translation.t)
    (s : Sample.t) (a b : Z) :
  Transcription.sample self = Some s →
  Sample.start s = Some a →
  Sample.end_ s = Some b →
  Transcription.time_matches_translation self translation =
    Ok (bool_decide (a = Translation.start translation ∧
                     b = Translation.end_ translation)).
Proof.
  intros Hs Ha Hb. unfold Transcription.time_matches_translation.
  rewrite Hs, Ha; simpl. unfold MATCH_ERROR_MARGIN.
  destruct (Z.ltb_spec (Z.abs (a - Translation.start translation)) 1).
  - rewrite Hb; simpl.
    destruct (Z.ltb_spec (Z.abs (b - Translation.end_ translation)) 1).
    + rewrite bool_decide_eq_true_2; [reflexivity | lia].
    + rewrite bool_decide_eq_false_2; [reflexivity | lia].
  - rewrite bool_decide_eq_false_2; [reflexivity | lia].
Qed.
End TranscriptionProperties.

(** C1, at the scenario of the specification: a sample over
    2000..5000 ms and a translation over 2300..4900 ms lie 300 ms and
    100 ms apart, within one second, yet [time_matches_translation]
    answers [False]: the margin 1 is compared with differences in
    milliseconds. *)
Theorem time_matches_translation_within_a_second :
  let P := Reference.platform true in
  let transcription :=
    (Transcription.__init__ 3 "word" None None (Some 2000) (Some 5000)
       (Some 60000) []).1 in
  Transcription.sample transcription =
    Some (Sample.mk 3 (Some 2000) (Some 5000) false (Some 60000) None None) ∧
  Transcription.time_matches_translation transcription
    (Translation.__init__ 3 "mot" 2300 4900) = Ok false.
Proof. split; vm_compute; reflexivity. Qed.

(** C7, at a window that starts at 0 ms: audio track, start and end are
    all given, and the new Transcription has no sample. *)
Theorem init_window_from_zero_has_no_sample :
  let P := Reference.platform true in
  Transcription.truthy_media (Some 60000) = true ∧
  Transcription.sample
    (Transcription.__init__ 0 "word" None None (Some 0) (Some 1500)
       (Some 60000) []).1 = None.
Proof. split; vm_compute; reflexivity. Qed.

(** ** Materialization *)

Lemma append_nonempty (a b : string) : b ≠ "" → a ++ b ≠ "".
Proof. intros Hb. destruct a; simpl; [exact Hb | discriminate]. Qed.

Lemma truthy_str_nonempty (s : string) : s ≠ "" → truthy_str (Some s) = true.
Proof. destruct s; [congruence | reflexivity]. Qed.

(** A path joined from a non-empty file name is a true value. *)
Lemma truthy_os_path_join (a b : string) :
  b ≠ "" → truthy_str (Some (os_path_join a b)) = true.
Proof.
  intros Hb. apply truthy_str_nonempty. unfold os_path_join.
  destruct (starts_with_sep b); [exact Hb|].
  destruct (negb (truthy_str (Some a)) || ends_with_sep a);
    apply append_nonempty; [exact Hb | apply append_nonempty, Hb].
Qed.

Section SampleProperties.
Context `{Platform}.

Lemma get_sample_file_path_cached (self : Sample.t) (w : World) :
  truthy_str (Sample.sample_path self) = true →
  Sample.get_sample_file_path self w = (Ok (Sample.sample_path self), self, w).
Proof. intros Hp. unfold Sample.get_sample_file_path. run. by rewrite Hp. Qed.

Lemma get_sample_file_path_returns (self self' : Sample.t) (w w' : World)
    (r : option string) :
  Sample.get_sample_file_path self w = (Ok r, self', w') →
  r = Sample.sample_path self' ∧ truthy_str (Sample.sample_path self') = true.
Proof.
  unfold Sample.get_sample_file_path, Sample.subscript. run.
  destruct (truthy_str (Sample.sample_path self)) eqn:Hp; simpl.
  - intros [= <- <- <-]. done.
  - destruct (Sample.audio_file self) as [a|]; [|discriminate].
    destruct (audio_getitem a _ _) as [segment|]; [|discriminate].
    destruct (tempfile_mkdtemp _) as [folder|]; [|discriminate].
    destruct (audio_export _ _); [|discriminate].
    intros [= <- <- <-]. split; [reflexivity|]. simpl.
    apply truthy_os_path_join, append_nonempty. discriminate.
Qed.

(** Once a call has returned, the next call returns the same path and
    leaves the sample and the log of library calls as they are. *)
Lemma get_sample_file_path_twice (self self' : Sample.t) (w w' : World)
    (r : option string) :
  Sample.get_sample_file_path self w = (Ok r, self', w') →
  Sample.get_sample_file_path self' w' = (Ok r, self', w').
Proof.
  intros Hfirst.
  destruct (get_sample_file_path_returns _ _ _ _ _ Hfirst) as [-> Hp].
  by apply get_sample_file_path_cached.
Qed.

(** The first call on a sample without a path, when it returns: the
    track was sliced over the window, [mkdtemp] gave the folder, the
    slice was exported to [<folder>/<index>.wav], and slice and path
    are stored. *)
Lemma get_sample_file_path_fresh (self self' : Sample.t) (w w' : World)
    (r : option string) :
  truthy_str (Sample.sample_path self) = false →
  Sample.get_sample_file_path self w = (Ok r, self', w') →
  ∃ track segment folder,
    let slicing := Call_getitem (Sample.start self) (Sample.end_ self) in
    let path := os_path_join folder (str_of_Z (Sample.index self) ++ ".wav") in
    Sample.audio_file self = Some track ∧
    audio_getitem track (Sample.start self) (Sample.end_ self) = Ok segment ∧
    tempfile_mkdtemp (w ++ [slicing; Call_mkdtemp])%list = Ok folder ∧
    audio_export w' segment = Ok tt ∧
    r = Some path ∧
    self' = Sample.set_sample_path (Some path)
              (Sample.set_sample_object (Some segment) self) ∧
    w' = (w ++ [slicing; Call_mkdtemp; Call_export path "wav"])%list.
Proof.
  intros Hp. unfold Sample.get_sample_file_path, Sample.subscript. run.
  rewrite Hp; simpl.
  destruct (Sample.audio_file self) as [track|]; [|discriminate].
  destruct (audio_getitem track _ _) as [segment|] eqn:Hslice; [|discriminate].
  destruct (tempfile_mkdtemp _) as [folder|] eqn:Hdir; [|discriminate].
  destruct (audio_export _ _) as [[]|] eqn:Hexport; [|discriminate].
  intros [= <- <- <-]. exists track, segment, folder. simpl.
  rewrite <- !app_assoc in *. simpl in *. done.
Qed.

(** A sample with no audio track and no path: the subscript on [None]
    raises [TypeError] and nothing changes. *)
Lemma get_sample_file_path_no_track (self : Sample.t) (w : World) :
  truthy_str (Sample.sample_path self) = false →
  Sample.audio_file self = None →
  Sample.get_sample_file_path self w = (Raise TypeError, self, w).
Proof.
  intros Hp Ha. unfold Sample.get_sample_file_path, Sample.subscript. run.
  by rewrite Hp, Ha.
Qed.

(** When slicing and [mkdtemp] succeed and [export] raises, the call
    raises with [sample_path] already set to the path that was not
    written. *)
Lemma get_sample_file_path_export_fails (self : Sample.t) (w : World)
    (a segment : AudioSegment) (folder : string) (e : exn) :
  let w1 := (w ++ [Call_getitem (Sample.start self) (Sample.end_ self)])%list in
  let w2 := (w1 ++ [Call_mkdtemp])%list in
  let path := os_path_join folder (str_of_Z (Sample.index self) ++ ".wav") in
  let w3 := (w2 ++ [Call_export path "wav"])%list in
  truthy_str (Sample.sample_path self) = false →
  Sample.audio_file self = Some a →
  audio_getitem a (Sample.start self) (Sample.end_ self) = Ok segment →
  tempfile_mkdtemp w2 = Ok folder →
  audio_export w3 segment = Raise e →
  Sample.get_sample_file_path self w =
    (Raise e,
     Sample.set_sample_path (Some path)
       (Sample.set_sample_object (Some segment) self),
     w3).
Proof.
  intros w1 w2 path w3 Hp Ha Hslice Hdir Hexport.
  unfold Sample.get_sample_file_path, Sample.subscript. run.
  rewrite Hp, Ha; simpl. rewrite Hslice.
  fold w1 w2. rewrite Hdir. fold path w3. by rewrite Hexport.
Qed.
End SampleProperties.

Lemma truthy_str_is_Some (s : option string) :
  truthy_str s = true → ∃ path, s = Some path.
Proof. destruct s as [path|]; [eauto | discriminate]. Qed.

Section PreviewProperties.
Context `{Platform}.

(** [get_temp_file] touches only [temp_file] and writes nothing. *)
Lemma get_temp_file_frame (self self' : Transcription.t) (w w' : World)
    (r : result (option string)) :
  Transcription.get_temp_file self w = (r, self', w') →
  Transcription.image self' = Transcription.image self ∧
  Transcription.preview_image self' = Transcription.preview_image self ∧
  Transcription.id self' = Transcription.id self ∧
  filter is_save w' = filter is_save w.
Proof.
  unfold Transcription.get_temp_file. run.
  destruct (truthy_str (Transcription.temp_file self)); simpl.
  - intros [= <- <- <-]. done.
  - destruct (tempfile_mkdtemp _); intros [= <- <- <-];
      rewrite filter_app, app_nil_r; done.
Qed.

(** A failed [refresh_preview_image] leaves [preview_image] as it was. *)
Lemma refresh_preview_image_fails (self self' : Transcription.t) (w w' : World)
    (e : exn) :
  Transcription.refresh_preview_image self w = (Raise e, self', w') →
  Transcription.preview_image self' = Transcription.preview_image self.
Proof.
  unfold Transcription.refresh_preview_image. run.
  destruct (Transcription.get_temp_file self w) as [[r self1] w1] eqn:Htmp.
  destruct (get_temp_file_frame _ _ _ _ _ Htmp) as (Himage & Hpreview & _ & _).
  destruct r as [folder|]; [|intros [= <- <- <-]; exact Hpreview].
  unfold Transcription.join_folder, Transcription.open_image.
  destruct folder as [folder|]; simpl; [|intros [= <- <- <-]; exact Hpreview].
  destruct (Transcription.image self1) as [path|]; run;
    [|intros [= <- <- <-]; exact Hpreview].
  destruct (io_open _); [|intros [= <- <- <-]; exact Hpreview].
  destruct (Image_open_file _ _) as [image|]; [|intros [= <- <- <-]; exact Hpreview].
  destruct (resize_contain _ _ _) as [preview|]; [|intros [= <- <- <-]; exact Hpreview].
  destruct (bool_decide (image_format image = Some "RBG")); simpl.
  - destruct (image_convert _ _); simpl; [|intros [= <- <- <-]; exact Hpreview].
    destruct (image_save _ _); [discriminate|intros [= <- <- <-]; exact Hpreview].
  - destruct (image_save _ _); [discriminate|intros [= <- <- <-]; exact Hpreview].
Qed.

(** A successful [refresh_preview_image] returns the path it stored in
    [preview_image], a true value. *)
Lemma refresh_preview_image_returns (self self' : Transcription.t) (w w' : World)
    (r : option string) :
  Transcription.refresh_preview_image self w = (Ok r, self', w') →
  r = Transcription.preview_image self' ∧
  truthy_str (Transcription.preview_image self') = true.
Proof.
  unfold Transcription.refresh_preview_image. run.
  destruct (Transcription.get_temp_file self w) as [[rf self1] w1].
  destruct rf as [folder|]; [|discriminate].
  unfold Transcription.join_folder, Transcription.open_image.
  destruct folder as [folder|]; simpl; [|discriminate].
  destruct (Transcription.image self1) as [path|]; run; [|discriminate].
  destruct (io_open _); [|discriminate].
  destruct (Image_open_file _ _) as [image|]; [|discriminate].
  destruct (resize_contain _ _ _) as [preview|]; [|discriminate].
  destruct (bool_decide (image_format image = Some "RBG")); simpl.
  - destruct (image_convert _ _); simpl; [|discriminate].
    destruct (image_save _ _); [|discriminate].
    intros [= <- <- <-]. split; [reflexivity|]. simpl.
    apply truthy_os_path_join, append_nonempty. discriminate.
  - destruct (image_save _ _); [|discriminate].
    intros [= <- <- <-]. split; [reflexivity|]. simpl.
    apply truthy_os_path_join, append_nonempty. discriminate.
Qed.

Lemma get_preview_image_cached (self : Transcription.t) (w : World) :
  truthy_str (Transcription.image self)
    && negb (truthy_str (Transcription.preview_image self)) = false →
  Transcription.get_preview_image self w =
    (Ok (Transcription.preview_image self), self, w).
Proof. intros Hc. unfold Transcription.get_preview_image. run. by rewrite Hc. Qed.

(** A call that returns gives the stored [preview_image], which is a
    true value when an image is set. *)
Lemma get_preview_image_returns (self self' : Transcription.t) (w w' : World)
    (r : option string) :
  Transcription.get_preview_image self w = (Ok r, self', w') →
  r = Transcription.preview_image self' ∧
  (truthy_str (Transcription.image self) = true →
   truthy_str (Transcription.preview_image self') = true).
Proof.
  unfold Transcription.get_preview_image. run.
  destruct (truthy_str (Transcription.image self)
            && negb (truthy_str (Transcription.preview_image self))) eqn:Hc;
    simpl.
  - destruct (Transcription.refresh_preview_image self w)
      as [[rr self1] w1] eqn:Hrefresh.
    destruct rr as [p|]; [|discriminate].
    destruct (refresh_preview_image_returns _ _ _ _ _ Hrefresh) as [_ Hp].
    intros [= <- <- <-]. done.
  - intros [= <- <- <-]. split; [reflexivity|].
    intros Himage. rewrite Himage in Hc. simpl in Hc.
    by apply negb_false_iff.
Qed.

(** Once a call has returned, the next call returns the same value and
    leaves the Transcription and the log of library calls as they are. *)
Lemma get_preview_image_twice (self self' : Transcription.t) (w w' : World)
    (r : option string) :
  Transcription.get_preview_image self w = (Ok r, self', w') →
  Transcription.get_preview_image self' w' = (Ok r, self', w').
Proof.
  intros Hfirst.
  destruct (truthy_str (Transcription.image self)
            && negb (truthy_str (Transcription.preview_image self))) eqn:Hc.
  - revert Hfirst. unfold Transcription.get_preview_image at 1. run.
    rewrite Hc; simpl.
    destruct (Transcription.refresh_preview_image self w)
      as [[rr self1] w1] eqn:Hrefresh.
    destruct rr as [p|]; [|discriminate].
    destruct (refresh_preview_image_returns _ _ _ _ _ Hrefresh) as [_ Hp].
    intros [= <- <- <-].
    apply get_preview_image_cached. rewrite Hp. apply andb_false_r.
  - rewrite (get_preview_image_cached _ _ Hc) in Hfirst.
    injection Hfirst as <- <- <-.
    by apply get_preview_image_cached.
Qed.

(** [set_image] never completes: the sum of the folder and the UUID
    raises [TypeError] whenever the image could be opened and the
    folder obtained.  No image is saved and [image] keeps its value. *)
Lemma set_image_raises (self : Transcription.t) (path_to_image : string)
    (w : World) :
  ∃ e self' w',
    Transcription.set_image path_to_image self w = (Raise e, self', w') ∧
    Transcription.image self' = Transcription.image self ∧
    filter is_save w' = filter is_save w ∧
    (∀ image folder,
        Image_open (w ++ [Call_Image_open path_to_image])%list = Ok image →
        Transcription.get_temp_file self
          (w ++ [Call_Image_open path_to_image])%list =
          (Ok folder, self', w') →
        e = TypeError).
Proof.
  unfold Transcription.set_image. run.
  destruct (Image_open _) as [image|e].
  - destruct (Transcription.get_temp_file self _) as [[rf self1] w1] eqn:Htmp.
    destruct (get_temp_file_frame _ _ _ _ _ Htmp) as (Himage & _ & _ & Hw).
    rewrite filter_app, app_nil_r in Hw.
    destruct rf as [folder|e].
    + destruct folder as [folder|]; simpl;
        exists TypeError, self1, w1; done.
    + exists e, self1, w1. split_and!; try done.
  - eexists e, self, _. split_and!; try done.
    by rewrite filter_app, app_nil_r.
Qed.
(** The two ways [get_temp_file] returns: the stored folder, or a new
    one from [mkdtemp]. *)
Lemma get_temp_file_run (self self1 : Transcription.t) (w w1 : World)
    (folder : option string) :
  Transcription.get_temp_file self w = (Ok folder, self1, w1) →
  (truthy_str (Transcription.temp_file self) = true ∧
   folder = Transcription.temp_file self ∧ self1 = self ∧ w1 = w) ∨
  (truthy_str (Transcription.temp_file self) = false ∧
   ∃ new,
     tempfile_mkdtemp (w ++ [Call_mkdtemp])%list = Ok new ∧
     folder = Some new ∧
     self1 = Transcription.set_temp_file (Some new) self ∧
     w1 = (w ++ [Call_mkdtemp])%list).
Proof.
  unfold Transcription.get_temp_file. run.
  destruct (truthy_str (Transcription.temp_file self)); simpl.
  - intros [= <- <- <-]. by left.
  - destruct (tempfile_mkdtemp _) as [new|] eqn:Hdir; [|discriminate].
    intros [= <- <- <-]. right. split; [done|]. by exists new.
Qed.

(** What a successful [refresh_preview_image] has done: the folder is
    the stored one or a new one, the image was opened, resized to
    250 x 250 and saved as PNG under [<folder>/<id>.png], and that path
    is stored. *)
Lemma refresh_preview_image_run (self self' : Transcription.t) (w w' : World)
    (r : option string) :
  Transcription.refresh_preview_image self w = (Ok r, self', w') →
  ∃ folder source pre mid image preview,
    let path := os_path_join folder
                  (str_of_UUID (Transcription.id self) ++ ".png") in
    Transcription.image self = Some source ∧
    ((Transcription.temp_file self = Some folder ∧ pre = []) ∨
     (tempfile_mkdtemp (w ++ [Call_mkdtemp])%list = Ok folder ∧
      pre = [Call_mkdtemp])) ∧
    (mid = [] ∨ mid = [Call_convert "RGBA"]) ∧
    w' = (w ++ pre ++
          [Call_open source "r+b"; Call_Image_open_file;
           Call_resize_contain 250 250] ++
          mid ++ [Call_save path "PNG"])%list ∧
    resize_contain image 250 250 = Ok preview ∧
    image_save w' preview = Ok tt ∧
    r = Some path ∧
    Transcription.preview_image self' = Some path ∧
    Transcription.temp_file self' = Some folder ∧
    Transcription.image self' = Transcription.image self ∧
    Transcription.id self' = Transcription.id self.
Proof.
  unfold Transcription.refresh_preview_image. run.
  destruct (Transcription.get_temp_file self w) as [[rf self1] w1] eqn:Htmp.
  destruct rf as [folder|]; [|discriminate].
  assert (Hfields :
    ∃ new pre,
      folder = Some new ∧
      ((Transcription.temp_file self = Some new ∧ pre = []) ∨
       (tempfile_mkdtemp (w ++ [Call_mkdtemp])%list = Ok new ∧
        pre = [Call_mkdtemp])) ∧
      w1 = (w ++ pre)%list ∧
      Transcription.temp_file self1 = Some new ∧
      Transcription.image self1 = Transcription.image self ∧
      Transcription.id self1 = Transcription.id self).
  { destruct (get_temp_file_run _ _ _ _ _ Htmp)
      as [(Ht & -> & -> & ->) | (_ & new & Hdir & -> & -> & ->)].
    - destruct (truthy_str_is_Some _ Ht) as [new Hnew].
      exists new, []. rewrite app_nil_r. split_and!; try done. by left.
    - exists new, [Call_mkdtemp]. split_and!; try done. by right. }
  destruct Hfields as (new & pre & -> & Hpre & -> & Hnew & Himage & Hid).
  unfold Transcription.join_folder, Transcription.open_image. simpl.
  destruct (Transcription.image self1) as [source|] eqn:Hsource; run;
    [|discriminate].
  destruct (io_open _); [|discriminate].
  destruct (Image_open_file _ _) as [image|]; [|discriminate].
  destruct (resize_contain _ _ _) as [preview|] eqn:Hresize; [|discriminate].
  destruct (bool_decide (image_format image = Some "RBG")); simpl.
  - destruct (image_convert _ _); simpl; [|discriminate].
    destruct (image_save _ _) as [[]|] eqn:Hsave; [|discriminate].
    intros [= <- <- <-].
    exists new, source, pre, [Call_convert "RGBA"], image, preview. simpl.
    rewrite <- !app_assoc in *. simpl in *. rewrite Hid in *.
    split_and!; try done; [by right | congruence].
  - destruct (image_save _ _) as [[]|] eqn:Hsave; [|discriminate].
    intros [= <- <- <-].
    exists new, source, pre, [], image, preview. simpl.
    rewrite <- !app_assoc in *. simpl in *. rewrite Hid in *.
    split_and!; try done; [by left | congruence].
Qed.

(** [get_preview_image] with an image and no preview refreshes; in every
    other case it changes nothing. *)
Lemma get_preview_image_run (self self' : Transcription.t) (w w' : World)
    (r : option string) :
  Transcription.get_preview_image self w = (Ok r, self', w') →
  (truthy_str (Transcription.image self)
     && negb (truthy_str (Transcription.preview_image self)) = false →
   self' = self ∧ w' = w) ∧
  (truthy_str (Transcription.image self)
     && negb (truthy_str (Transcription.preview_image self)) = true →
   ∃ p, Transcription.refresh_preview_image self w = (Ok p, self', w')).
Proof.
  unfold Transcription.get_preview_image. run.
  destruct (truthy_str (Transcription.image self)
            && negb (truthy_str (Transcription.preview_image self))); simpl.
  - destruct (Transcription.refresh_preview_image self w)
      as [[rr self1] w1].
    destruct rr as [p|]; [|discriminate].
    intros [= <- <- <-]. split; [discriminate|]. intros _. by exists p.
  - intros [= <- <- <-]. split; [done | discriminate].
Qed.
End PreviewProperties.

(** C2. Take a call of [get_sample_file_path] (on any Sample) or of
    [get_preview_image] (on any Transcription) that returns.

    If the Sample had no path, this first call sliced the audio track
    over the window, obtained a folder from [mkdtemp] and exported the
    slice as wav to [<folder>/<index>.wav], in this order and with no
    other library call, and stored slice and path; if it had a path,
    nothing was called or changed.  If the Transcription had an image
    and no preview, this first call opened the image, resized it to
    250 x 250 and saved it as PNG to [<folder>/<id>.png] in the
    Transcription's folder, and stored that path; otherwise nothing was
    called or changed.

    Calling again on the same object returns the identical value, a
    path for a Sample and for a Transcription whose image is set, and
    changes neither the object nor the log of library calls: nothing is
    sliced, resized or written the second time. *)
Theorem materialization_memoized `{Platform} :
  (∀ (self self' : Sample.t) (w w' : World) (r : option string),
      Sample.get_sample_file_path self w = (Ok r, self', w') →
      (∃ path, r = Some path ∧ Sample.sample_path self' = Some path) ∧
      (truthy_str (Sample.sample_path self) = true → self' = self ∧ w' = w) ∧
      (truthy_str (Sample.sample_path self) = false →
       ∃ track segment folder,
         let slicing := Call_getitem (Sample.start self) (Sample.end_ self) in
         let path :=
           os_path_join folder (str_of_Z (Sample.index self) ++ ".wav") in
         Sample.audio_file self = Some track ∧
         audio_getitem track (Sample.start self) (Sample.end_ self) =
           Ok segment ∧
         tempfile_mkdtemp (w ++ [slicing; Call_mkdtemp])%list = Ok folder ∧
         audio_export w' segment = Ok tt ∧
         r = Some path ∧
         self' = Sample.set_sample_path (Some path)
                   (Sample.set_sample_object (Some segment) self) ∧
         w' = (w ++ [slicing; Call_mkdtemp; Call_export path "wav"])%list) ∧
      Sample.get_sample_file_path self' w' = (Ok r, self', w')) ∧
  (∀ (self self' : Transcription.t) (w w' : World) (r : option string),
      Transcription.get_preview_image self w = (Ok r, self', w') →
      r = Transcription.preview_image self' ∧
      (truthy_str (Transcription.image self) = true → ∃ path, r = Some path) ∧
      (truthy_str (Transcription.image self)
         && negb (truthy_str (Transcription.preview_image self)) = false →
       self' = self ∧ w' = w) ∧
      (truthy_str (Transcription.image self)
         && negb (truthy_str (Transcription.preview_image self)) = true →
       ∃ folder source pre mid image preview,
         let path := os_path_join folder
                       (str_of_UUID (Transcription.id self) ++ ".png") in
         Transcription.image self = Some source ∧
         ((Transcription.temp_file self = Some folder ∧ pre = []) ∨
          (tempfile_mkdtemp (w ++ [Call_mkdtemp])%list = Ok folder ∧
           pre = [Call_mkdtemp])) ∧
         (mid = [] ∨ mid = [Call_convert "RGBA"]) ∧
         w' = (w ++ pre ++
               [Call_open source "r+b"; Call_Image_open_file;
                Call_resize_contain 250 250] ++
               mid ++ [Call_save path "PNG"])%list ∧
         resize_contain image 250 250 = Ok preview ∧
         image_save w' preview = Ok tt ∧
         r = Some path ∧
         Transcription.preview_image self' = Some path ∧
         Transcription.temp_file self' = Some folder ∧
         Transcription.image self' = Transcription.image self ∧
         Transcription.id self' = Transcription.id self) ∧
      Transcription.get_preview_image self' w' = (Ok r, self', w')).
Proof.
  split.
  - intros self self' w w' r Hfirst. split_and!.
    + destruct (get_sample_file_path_returns _ _ _ _ _ Hfirst) as [-> Hp].
      destruct (truthy_str_is_Some _ Hp) as [path Hpath].
      exists path. by rewrite Hpath.
    + intros Hp. rewrite (get_sample_file_path_cached _ _ Hp) in Hfirst.
      by injection Hfirst as <- <- <-.
    + intros Hp. exact (get_sample_file_path_fresh _ _ _ _ _ Hp Hfirst).
    + exact (get_sample_file_path_twice _ _ _ _ _ Hfirst).
  - intros self self' w w' r Hfirst.
    destruct (get_preview_image_returns _ _ _ _ _ Hfirst) as [Hr Hp].
    destruct (get_preview_image_run _ _ _ _ _ Hfirst) as [Hkept Hfresh].
    split_and!.
    + exact Hr.
    + intros Himage. rewrite Hr. by apply truthy_str_is_Some, Hp.
    + exact Hkept.
    + intros Hc. destruct (Hfresh Hc) as [p Hrefresh].
      destruct (refresh_preview_image_run _ _ _ _ _ Hrefresh)
        as (folder & source & pre & mid & image & preview & Hrun).
      exists folder, source, pre, mid, image, preview.
      destruct Hrun as (? & ? & ? & ? & ? & ? & _ & Hstored & ? & ? & ?).
      split_and!; try done. by rewrite Hr.
    + exact (get_preview_image_twice _ _ _ _ _ Hfirst).
Qed.

Lemma materialization_memoized_witness :
  let P := Reference.platform true in
  let sample := Sample.__init__ 3 (Some 2000) (Some 5000) (Some 60000) None None in
  let entry :=
    (Transcription.__init__ 3 "word" None (Some "photo.jpg") None None None []).1 in
  let first := Sample.get_sample_file_path sample [] in
  let shown := Transcription.get_preview_image entry [Call_uuid4] in
  (first.1.1 = Ok (Some "/tmp/tmp1/3.wav") ∧
   Sample.sample_path first.1.2 = Some "/tmp/tmp1/3.wav" ∧
   first.2 = [ Call_getitem (Some 2000) (Some 5000); Call_mkdtemp;
               Call_export "/tmp/tmp1/3.wav" "wav" ] ∧
   Sample.get_sample_file_path first.1.2 first.2 =
     (Ok (Some "/tmp/tmp1/3.wav"), first.1.2, first.2)) ∧
  (shown.1.1 = Ok (Some "/tmp/tmp1/uuid1.png") ∧
   Transcription.preview_image shown.1.2 = Some "/tmp/tmp1/uuid1.png" ∧
   shown.2 = [ Call_uuid4; Call_mkdtemp; Call_open "photo.jpg" "r+b";
               Call_Image_open_file; Call_resize_contain 250 250;
               Call_save "/tmp/tmp1/uuid1.png" "PNG" ] ∧
   Transcription.get_preview_image shown.1.2 shown.2 =
     (Ok (Some "/tmp/tmp1/uuid1.png"), shown.1.2, shown.2)).
Proof.
  intros P sample entry first shown. split.
  - do 3 (split; [vm_compute; reflexivity|]).
    apply (proj1 (@materialization_memoized P) sample first.1.2 [] first.2
             (Some "/tmp/tmp1/3.wav")).
    vm_compute; reflexivity.
  - do 3 (split; [vm_compute; reflexivity|]).
    apply (proj2 (@materialization_memoized P) entry shown.1.2 [Call_uuid4]
             shown.2 (Some "/tmp/tmp1/uuid1.png")).
    vm_compute; reflexivity.
Defined.

(** C4, at a sample whose clip cannot be written: the audio track is
    sliced, the folder is created and [export] raises [OSError].  The
    call fails with [sample_path] already set, and the next call returns
    that path without writing anything. *)
Theorem failed_export_leaves_sample_path :
  let P := Reference.platform false in
  let sample := Sample.__init__ 3 (Some 2000) (Some 5000) (Some 60000) None None in
  let self' :=
    Sample.mk 3 (Some 2000) (Some 5000) false (Some 60000)
      (Some "/tmp/tmp1/3.wav") (Some 3000) in
  let w' := [ Call_getitem (Some 2000) (Some 5000); Call_mkdtemp;
              Call_export "/tmp/tmp1/3.wav" "wav" ] in
  Sample.sample_path sample = None ∧
  Sample.get_sample_file_path sample [] = (Raise OSError, self', w') ∧
  Sample.get_sample_file_path self' w' = (Ok (Some "/tmp/tmp1/3.wav"), self', w').
Proof. split_and!; vm_compute; reflexivity. Qed.

(** C6, as the code has it.  On a Sample with a time window, no path
    and no audio track, [get_sample_file_path] fails with the
    [TypeError] raised by subscripting [None]; the Sample is unchanged
    and no library is called. *)
Theorem get_sample_file_path_without_track `{Platform} (self : Sample.t)
    (w : World) (a b : Z) :
  Sample.start self = Some a →
  Sample.end_ self = Some b →
  truthy_str (Sample.sample_path self) = false →
  Sample.audio_file self = None →
  Sample.get_sample_file_path self w = (Raise TypeError, self, w).
Proof. intros _ _ Hp Ha. by apply get_sample_file_path_no_track. Qed.

Lemma get_sample_file_path_without_track_witness :
  let P := Reference.platform true in
  let sample := Sample.__init__ 3 (Some 2000) (Some 5000) None None None in
  Sample.get_sample_file_path sample [] = (Raise TypeError, sample, []).
Proof.
  intros P sample.
  apply (@get_sample_file_path_without_track P sample [] 2000 5000);
    reflexivity.
Defined.

(** C6 as stated fails: a Sample over 2000..5000 ms with no path and no
    audio track fails with [TypeError], not with [MediaError]. *)
Lemma missing_track_not_MediaError :
  let P := Reference.platform true in
  let sample := Sample.__init__ 3 (Some 2000) (Some 5000) None None None in
  Sample.audio_file sample = None ∧
  Sample.sample_path sample = None ∧
  (Sample.get_sample_file_path sample []).1.1 = Raise TypeError ∧
  (Sample.get_sample_file_path sample []).1.1 ≠ Raise MediaError.
Proof.
  split_and!; try (vm_compute; reflexivity).
  vm_compute. discriminate.
Qed.

(** C8, at an image that opens: [set_image] obtains the folder and then
    raises [TypeError] on the sum of the folder and the UUID.  Nothing
    is saved and [image] is not recorded. *)
Theorem set_image_raises_TypeError :
  let P := Reference.platform true in
  let entry :=
    (Transcription.__init__ 0 "word" None None None None None []).1 in
  let '(r, self', w') := Transcription.set_image "photo.png" entry [Call_uuid4] in
  r = Raise TypeError ∧
  Transcription.image self' = None ∧
  Transcription.temp_file self' = Some "/tmp/tmp1" ∧
  w' = [Call_uuid4; Call_Image_open "photo.png"; Call_mkdtemp].
Proof. vm_compute. split_and!; reflexivity. Qed.

(** * Further properties of the code *)

(** ** Sample *)

Section MoreSampleProperties.
Context `{Platform}.

(** A successful first call on a Sample without a path makes exactly
    three library calls, in order: the slice of the track over the
    window, [mkdtemp], and the export of that slice as wav.  The path
    returned and stored is [<folder>/<index>.wav] under the folder
    [mkdtemp] answered, and the slice is stored in [sample_object]. *)
Theorem get_sample_file_path_first (self self' : Sample.t) (w w' : World)
    (r : option string) :
  truthy_str (Sample.sample_path self) = false →
  Sample.get_sample_file_path self w = (Ok r, self', w') →
  ∃ track segment folder,
    let slicing := Call_getitem (Sample.start self) (Sample.end_ self) in
    let path := os_path_join folder (str_of_Z (Sample.index self) ++ ".wav") in
    Sample.audio_file self = Some track ∧
    audio_getitem track (Sample.start self) (Sample.end_ self) = Ok segment ∧
    tempfile_mkdtemp (w ++ [slicing; Call_mkdtemp])%list = Ok folder ∧
    audio_export w' segment = Ok tt ∧
    r = Some path ∧
    Sample.sample_path self' = Some path ∧
    Sample.sample_object self' = Some segment ∧
    w' = (w ++ [slicing; Call_mkdtemp; Call_export path "wav"])%list.
Proof.
  intros Hp Hfirst.
  destruct (get_sample_file_path_fresh _ _ _ _ _ Hp Hfirst)
    as (track & segment & folder & Ha & Hslice & Hdir & Hexport & -> & -> & ->).
  exists track, segment, folder. split_and!; done.
Qed.

(** Whatever the outcome, [get_sample_file_path] leaves the index, the
    time window, the [recorded] flag and the audio track of the Sample
    as they were. *)
Theorem get_sample_file_path_frame (self : Sample.t) (w : World) :
  let self' := (Sample.get_sample_file_path self w).1.2 in
  Sample.index self' = Sample.index self ∧
  Sample.start self' = Sample.start self ∧
  Sample.end_ self' = Sample.end_ self ∧
  Sample.recorded self' = Sample.recorded self ∧
  Sample.audio_file self' = Sample.audio_file self.
Proof.
  unfold Sample.get_sample_file_path, Sample.subscript. run.
  destruct (truthy_str (Sample.sample_path self)); simpl; [done|].
  destruct (Sample.audio_file self) as [a|] eqn:Ha; simpl; [|done].
  destruct (audio_getitem a _ _); simpl; [|done].
  destruct (tempfile_mkdtemp _); simpl; [|done].
  destruct (audio_export _ _); simpl; done.
Qed.

(** The ways a call can fail.  Either [sample_path] is as before (the
    track is missing, or slicing or [mkdtemp] raised), or the last
    library call was the [export] of the clip and [sample_path] already
    names that clip. *)
Theorem get_sample_file_path_failure (self self' : Sample.t) (w w' : World)
    (e : exn) :
  Sample.get_sample_file_path self w = (Raise e, self', w') →
  truthy_str (Sample.sample_path self) = false ∧
  (Sample.sample_path self' = Sample.sample_path self ∨
   ∃ folder,
     let path := os_path_join folder (str_of_Z (Sample.index self) ++ ".wav") in
     Sample.sample_path self' = Some path ∧
     last w' = Some (Call_export path "wav")).
Proof.
  unfold Sample.get_sample_file_path, Sample.subscript. run.
  destruct (truthy_str (Sample.sample_path self)); simpl; [discriminate|].
  intros Hrun. split; [reflexivity|]. revert Hrun.
  destruct (Sample.audio_file self) as [a|]; simpl;
    [|intros [= <- <- <-]; by left].
  destruct (audio_getitem a _ _); simpl; [|intros [= <- <- <-]; by left].
  destruct (tempfile_mkdtemp _) as [folder|]; simpl;
    [|intros [= <- <- <-]; by left].
  destruct (audio_export _ _); [discriminate|].
  intros [= <- <- <-]. right. exists folder. simpl.
  split; [reflexivity|]. apply last_snoc.
Qed.

(** [set_sample] followed by the accessors: the given path and the
    decoded clip come back, and nothing is sliced or written. *)
Theorem set_sample_then_get (self self' : Sample.t) (w w' : World)
    (path : string) :
  Sample.set_sample path self w = (Ok tt, self', w') →
  path ≠ "" →
  w' = (w ++ [Call_from_wav path])%list ∧
  Sample.get_sample_file_path self' w' = (Ok (Some path), self', w') ∧
  ∃ segment,
    audio_from_wav w' = Ok segment ∧
    Sample.get_sample_file_object self' w' = (Ok (Some segment), self', w').
Proof.
  unfold Sample.set_sample. run.
  destruct (audio_from_wav _) as [segment|] eqn:Hwav; [|discriminate].
  intros [= <- <-] Hpath.
  set (self1 := Sample.set_sample_object (Some segment)
                  (Sample.set_sample_path (Some path) self)).
  set (w1 := (w ++ [Call_from_wav path])%list).
  assert (Hcached : Sample.get_sample_file_path self1 w1 =
                    (Ok (Some path), self1, w1)).
  { apply (get_sample_file_path_cached self1 w1).
    simpl. by apply truthy_str_nonempty. }
  split; [reflexivity|]. split; [exact Hcached|].
  exists segment. split; [exact Hwav|].
  unfold Sample.get_sample_file_object. run. by rewrite Hcached.
Qed.

(** When decoding fails, [set_sample] has already stored the path: the
    Sample keeps its old [sample_object] beside the new [sample_path]. *)
Theorem set_sample_failure (self self' : Sample.t) (w w' : World)
    (path : string) (e : exn) :
  Sample.set_sample path self w = (Raise e, self', w') →
  self' = Sample.set_sample_path (Some path) self ∧
  Sample.sample_object self' = Sample.sample_object self ∧
  w' = (w ++ [Call_from_wav path])%list.
Proof.
  unfold Sample.set_sample. run.
  destruct (audio_from_wav _); [discriminate|].
  intros [= _ <- <-]. done.
Qed.

(** [get_sample_file_object] on a Sample without a path returns the
    slice of the audio track over the Sample's window, and stores it;
    on a Sample with a path it returns the stored object, which may be
    [None], and calls no library. *)
Theorem get_sample_file_object_result (self : Sample.t) (w : World) :
  (truthy_str (Sample.sample_path self) = true →
   Sample.get_sample_file_object self w =
     (Ok (Sample.sample_object self), self, w)) ∧
  (truthy_str (Sample.sample_path self) = false →
   ∀ (r : option AudioSegment) (self' : Sample.t) (w' : World),
     Sample.get_sample_file_object self w = (Ok r, self', w') →
     ∃ track segment,
       Sample.audio_file self = Some track ∧
       audio_getitem track (Sample.start self) (Sample.end_ self) = Ok segment ∧
       r = Some segment ∧
       Sample.sample_object self' = Some segment).
Proof.
  split.
  - intros Hp. unfold Sample.get_sample_file_object. run.
    by rewrite (get_sample_file_path_cached _ _ Hp).
  - intros Hp r self' w'.
    unfold Sample.get_sample_file_object, Sample.get_sample_file_path,
      Sample.subscript. run.
    rewrite Hp; simpl.
    destruct (Sample.audio_file self) as [track|]; [|discriminate].
    destruct (audio_getitem track _ _) as [segment|] eqn:Hslice; [|discriminate].
    destruct (tempfile_mkdtemp _); [|discriminate].
    destruct (audio_export _ _); [|discriminate].
    intros [= <- <- <-]. by exists track, segment.
Qed.

(** A blank Sample (no window, no track, no path) cannot be
    materialized: both accessors raise [TypeError] and leave it blank. *)
Theorem blank_sample_not_materialized (index : Z) (w : World) :
  let blank := Sample.__init__ index None None None None None in
  Sample.get_sample_file_path blank w = (Raise TypeError, blank, w) ∧
  Sample.get_sample_file_object blank w = (Raise TypeError, blank, w).
Proof. split; reflexivity. Qed.
End MoreSampleProperties.

Lemma get_sample_file_path_first_witness :
  let P := Reference.platform true in
  let sample := Sample.__init__ 3 (Some 2000) (Some 5000) (Some 60000) None None in
  let out := Sample.get_sample_file_path sample [] in
  ∃ track segment folder,
    let slicing := Call_getitem (Some 2000) (Some 5000) in
    let path := os_path_join folder (str_of_Z 3 ++ ".wav") in
    Sample.audio_file sample = Some track ∧
    audio_getitem track (Some 2000) (Some 5000) = Ok segment ∧
    tempfile_mkdtemp ([] ++ [slicing; Call_mkdtemp])%list = Ok folder ∧
    audio_export out.2 segment = Ok tt ∧
    Some "/tmp/tmp1/3.wav" = Some path ∧
    Sample.sample_path out.1.2 = Some path ∧
    Sample.sample_object out.1.2 = Some segment ∧
    out.2 = ([] ++ [slicing; Call_mkdtemp; Call_export path "wav"])%list.
Proof.
  intros P sample out.
  apply (@get_sample_file_path_first P sample out.1.2 [] out.2
           (Some "/tmp/tmp1/3.wav")); vm_compute; reflexivity.
Defined.

Lemma get_sample_file_path_failure_witness :
  let P := Reference.platform false in
  let sample := Sample.__init__ 3 (Some 2000) (Some 5000) (Some 60000) None None in
  let out := Sample.get_sample_file_path sample [] in
  truthy_str (Sample.sample_path sample) = false ∧
  (Sample.sample_path out.1.2 = Sample.sample_path sample ∨
   ∃ folder,
     let path := os_path_join folder (str_of_Z (Sample.index sample) ++ ".wav") in
     Sample.sample_path out.1.2 = Some path ∧
     last out.2 = Some (Call_export path "wav")).
Proof.
  intros P sample out.
  apply (@get_sample_file_path_failure P sample out.1.2 [] out.2 OSError).
  vm_compute; reflexivity.
Defined.

Lemma set_sample_then_get_witness :
  let P := Reference.platform true in
  let blank := Sample.__init__ 3 None None None None None in
  let out := Sample.set_sample "/rec/3.wav" blank [] in
  out.2 = ([] ++ [Call_from_wav "/rec/3.wav"])%list ∧
  Sample.get_sample_file_path out.1.2 out.2 =
    (Ok (Some "/rec/3.wav"), out.1.2, out.2) ∧
  ∃ segment,
    audio_from_wav out.2 = Ok segment ∧
    Sample.get_sample_file_object out.1.2 out.2 =
      (Ok (Some segment), out.1.2, out.2).
Proof.
  intros P blank out.
  apply (@set_sample_then_get P blank out.1.2 [] out.2 "/rec/3.wav").
  - vm_compute; reflexivity.
  - discriminate.
Defined.

Lemma set_sample_failure_witness :
  let P := Reference.broken in
  let blank := Sample.__init__ 3 None None None None None in
  let out := Sample.set_sample "/rec/3.wav" blank [] in
  out.1.2 = Sample.set_sample_path (Some "/rec/3.wav") blank ∧
  Sample.sample_object out.1.2 = Sample.sample_object blank ∧
  out.2 = ([] ++ [Call_from_wav "/rec/3.wav"])%list.
Proof.
  intros P blank out.
  apply (@set_sample_failure P blank out.1.2 [] out.2 "/rec/3.wav" OSError).
  vm_compute; reflexivity.
Defined.

Lemma get_sample_file_object_result_witness :
  let P := Reference.platform true in
  let recorded :=
    Sample.__init__ 3 None None None (Some "/rec/3.wav") None in
  let timed := Sample.__init__ 3 (Some 2000) (Some 5000) (Some 60000) None None in
  Sample.get_sample_file_object recorded [] = (Ok None, recorded, []) ∧
  ∃ track segment,
    Sample.audio_file timed = Some track ∧
    audio_getitem track (Sample.start timed) (Sample.end_ timed) = Ok segment ∧
    Some 3000 = Some segment ∧
    Sample.sample_object (Sample.get_sample_file_object timed []).1.2 =
      Some segment.
Proof.
  intros P recorded timed. split.
  - apply (proj1 (@get_sample_file_object_result P recorded [])). reflexivity.
  - apply (proj2 (@get_sample_file_object_result P timed []) eq_refl
             (Some 3000) (Sample.get_sample_file_object timed []).1.2
             (Sample.get_sample_file_object timed []).2).
    vm_compute; reflexivity.
Defined.

(** ** Transcription *)

Lemma time_matches_margin_witness :
  let P := Reference.platform true in
  let sample := Sample.__init__ 3 (Some 2000) (Some 5000) (Some 60000) None None in
  let entry :=
    Transcription.mk 3 "word" None None None (mkUUID "uuid1") None (Some sample) in
  let translation := Translation.__init__ 3 "mot" 2000 5000 in
  Transcription.time_matches_translation entry translation =
    Ok (bool_decide (2000 = Translation.start translation ∧
                     5000 = Translation.end_ translation)).
Proof.
  intros P sample entry translation.
  apply (@time_matches_margin P entry translation sample 2000 5000);
    reflexivity.
Defined.

Section MoreTranscriptionProperties.
Context `{Platform}.

(** After [set_blank_sample] the Transcription owns a blank Sample with
    its own index, and matching it against any Translation raises
    [TypeError] (the subtraction from [None]) instead of answering. *)
Theorem blank_sample_cannot_be_matched (self : Transcription.t)
    (translation : Translation.t) (w : World) :
  let self' := (Transcription.set_blank_sample self w).1.2 in
  Transcription.set_blank_sample self w = (Ok tt, self', w) ∧
  Transcription.sample self' =
    Some (Sample.__init__ (Transcription.index self) None None None None None) ∧
  Transcription.time_matches_translation self' translation = Raise TypeError.
Proof. split_and!; reflexivity. Qed.

(** The start decides first: when the starts lie [MATCH_ERROR_MARGIN]
    (one millisecond) or more apart, the answer is [False] whatever the
    end of the sample is, even [None]. *)
Theorem time_matches_start_decides (self : Transcription.t)
    (translation : Translation.t) (s : Sample.t) (a : Z) :
  Transcription.sample self = Some s →
  Sample.start s = Some a →
  MATCH_ERROR_MARGIN ≤ Z.abs (a - Translation.start translation) →
  Transcription.time_matches_translation self translation = Ok false.
Proof.
  intros Hs Ha Hfar. unfold Transcription.time_matches_translation.
  rewrite Hs, Ha; simpl.
  destruct (Z.ltb_spec (Z.abs (a - Translation.start translation))
              MATCH_ERROR_MARGIN); [lia | reflexivity].
Qed.

(** When the starts coincide and the sample has no end, matching
    raises [TypeError]. *)
Theorem time_matches_missing_end (self : Transcription.t)
    (translation : Translation.t) (s : Sample.t) :
  Transcription.sample self = Some s →
  Sample.start s = Some (Translation.start translation) →
  Sample.end_ s = None →
  Transcription.time_matches_translation self translation = Raise TypeError.
Proof.
  intros Hs Ha Hb. unfold Transcription.time_matches_translation.
  rewrite Hs, Ha; simpl. rewrite Z.sub_diag. simpl. by rewrite Hb.
Qed.

(** A new Transcription owns a Sample exactly when the audio track is a
    segment of non-zero length and start and end are both numbers
    other than 0; the Sample then carries the index, the window and the
    track, and has no path.  The image is stored as given, and there is
    no preview and no folder yet. *)
Theorem init_sample_present_iff (index : Z) (transcription : string)
    (translation image : option string) (start end_ : option Z)
    (media : option AudioSegment) (w : World) :
  let self :=
    (Transcription.__init__ index transcription translation image
       start end_ media w).1 in
  (is_Some (Transcription.sample self) ↔
   ∃ track a b,
     media = Some track ∧ audio_len track ≠ 0 ∧
     start = Some a ∧ a ≠ 0 ∧ end_ = Some b ∧ b ≠ 0) ∧
  (∀ s, Transcription.sample self = Some s →
        s = Sample.mk index start end_ false media None None) ∧
  Transcription.image self = image ∧
  Transcription.preview_image self = None ∧
  Transcription.temp_file self = None.
Proof.
  intros self. split_and!; try reflexivity.
  - unfold self. rewrite init_sample. split.
    + destruct media as [track|]; simpl; [|by intros [? ?]].
      destruct (Z.eqb_spec (audio_len track) 0); simpl; [by intros [? ?]|].
      destruct start as [a|]; simpl; [|by intros [? ?]].
      destruct (Z.eqb_spec a 0); simpl; [by intros [? ?]|].
      destruct end_ as [b|]; simpl; [|by intros [? ?]].
      destruct (Z.eqb_spec b 0); simpl; [by intros [? ?]|].
      intros _. by exists track, a, b.
    + intros (track & a & b & -> & Htrack & -> & Ha & -> & Hb). simpl.
      destruct (Z.eqb_spec (audio_len track) 0); [done|].
      destruct (Z.eqb_spec a 0); [done|].
      destruct (Z.eqb_spec b 0); [done|]. simpl. by eexists.
  - intros s. unfold self. rewrite init_sample.
    destruct (Transcription.truthy_media media && truthy_num start
              && truthy_num end_); [|discriminate].
    by intros [= <-].
Qed.
End MoreTranscriptionProperties.

Lemma time_matches_start_decides_witness :
  let P := Reference.platform true in
  let sample := Sample.__init__ 3 (Some 2000) None (Some 60000) None None in
  let entry :=
    Transcription.mk 3 "word" None None None (mkUUID "uuid1") None (Some sample) in
  Transcription.time_matches_translation entry
    (Translation.__init__ 3 "mot" 2001 5000) = Ok false.
Proof.
  intros P sample entry.
  apply (@time_matches_start_decides P entry _ sample 2000);
    [reflexivity | reflexivity | unfold MATCH_ERROR_MARGIN; simpl; lia].
Defined.

Lemma time_matches_missing_end_witness :
  let P := Reference.platform true in
  let sample := Sample.__init__ 3 (Some 2000) None (Some 60000) None None in
  let entry :=
    Transcription.mk 3 "word" None None None (mkUUID "uuid1") None (Some sample) in
  Transcription.time_matches_translation entry
    (Translation.__init__ 3 "mot" 2000 5000) = Raise TypeError.
Proof.
  intros P sample entry.
  apply (@time_matches_missing_end P entry _ sample); reflexivity.
Defined.

Lemma init_sample_present_iff_witness :
  let P := Reference.platform true in
  is_Some (Transcription.sample
             (Transcription.__init__ 3 "word" None None (Some 2000)
                (Some 5000) (Some 60000) []).1).
Proof.
  intros P.
  apply (proj1 (@init_sample_present_iff P 3 "word" None None (Some 2000)
                  (Some 5000) (Some 60000) [])).
  exists 60000, 2000, 5000. split_and!; (reflexivity || discriminate).
Defined.

(** ** Scratch folders and previews *)

Section MorePreviewProperties.
Context `{Platform}.

Lemma get_temp_file_returns (self self' : Transcription.t) (w w' : World)
    (folder : option string) :
  Transcription.get_temp_file self w = (Ok folder, self', w') →
  Transcription.temp_file self' = folder.
Proof.
  unfold Transcription.get_temp_file. run.
  destruct (truthy_str (Transcription.temp_file self)); simpl.
  - by intros [= <- <- <-].
  - destruct (tempfile_mkdtemp _); [|discriminate]. by intros [= <- <- <-].
Qed.

(** [get_temp_file] returns the folder stored in [temp_file], creating
    it with at most one [mkdtemp]; once it has returned a non-empty
    folder, every later call returns the same folder and calls
    nothing.  A failing [mkdtemp] leaves the Transcription as it was. *)
Theorem get_temp_file_memoized (self self' : Transcription.t) (w w' : World)
    (r : result (option string)) :
  Transcription.get_temp_file self w = (r, self', w') →
  (w' = w ∨ w' = (w ++ [Call_mkdtemp])%list) ∧
  (∀ e, r = Raise e → self' = self) ∧
  (∀ folder, r = Ok folder →
     folder = Transcription.temp_file self' ∧
     is_Some folder ∧
     (truthy_str folder = true →
      Transcription.get_temp_file self' w' = (Ok folder, self', w'))).
Proof.
  unfold Transcription.get_temp_file at 1. run.
  destruct (truthy_str (Transcription.temp_file self)) eqn:Ht; simpl.
  - intros [= <- <- <-]. split_and!; [by left | done |].
    intros folder [= <-]. split_and!; [done | by apply truthy_str_is_Some |].
    intros _. unfold Transcription.get_temp_file. run. by rewrite Ht.
  - destruct (tempfile_mkdtemp _) as [folder|e]; intros [= <- <- <-].
    + split_and!; [by right | done |].
      intros ? [= <-]. simpl. split_and!; [done | by eexists |].
      intros Hf. unfold Transcription.get_temp_file. run. by rewrite Hf.
    + split_and!; [by right | done | done].
Qed.

(** A successful [refresh_preview_image] saves the preview last, as PNG,
    under the Transcription's folder with the file name [<id>.png], and
    returns that path; the image and the id are unchanged. *)
Theorem refresh_preview_image_location (self self' : Transcription.t)
    (w w' : World) (r : option string) :
  Transcription.refresh_preview_image self w = (Ok r, self', w') →
  ∃ folder,
    let path := os_path_join folder
                  (str_of_UUID (Transcription.id self) ++ ".png") in
    Transcription.temp_file self' = Some folder ∧
    r = Some path ∧
    Transcription.preview_image self' = Some path ∧
    last w' = Some (Call_save path "PNG") ∧
    Transcription.image self' = Transcription.image self ∧
    Transcription.id self' = Transcription.id self.
Proof.
  unfold Transcription.refresh_preview_image. run.
  destruct (Transcription.get_temp_file self w) as [[rf self1] w1] eqn:Htmp.
  destruct (get_temp_file_frame _ _ _ _ _ Htmp) as (Himage & _ & Hid & _).
  destruct rf as [folder|]; [|discriminate].
  pose proof (get_temp_file_returns _ _ _ _ _ Htmp) as Hstored.
  unfold Transcription.join_folder, Transcription.open_image.
  destruct folder as [folder|]; simpl; [|discriminate].
  destruct (Transcription.image self1) as [path|] eqn:Hpath; run;
    [|discriminate].
  destruct (io_open _); [|discriminate].
  destruct (Image_open_file _ _) as [image|]; [|discriminate].
  destruct (resize_contain _ _ _) as [preview|]; [|discriminate].
  destruct (bool_decide (image_format image = Some "RBG")); simpl.
  - destruct (image_convert _ _); simpl; [|discriminate].
    destruct (image_save _ _); [|discriminate].
    intros [= <- <- <-]. exists folder. simpl. rewrite Hid.
    split_and!; try done; [apply last_snoc | congruence].
  - destruct (image_save _ _); [|discriminate].
    intros [= <- <- <-]. exists folder. simpl. rewrite Hid.
    split_and!; try done; [apply last_snoc | congruence].
Qed.

(** Without an image [refresh_preview_image] never succeeds; when the
    folder already exists it raises [TypeError] (opening [None]) and
    changes nothing. *)
Theorem refresh_preview_image_without_image (self : Transcription.t)
    (w : World) :
  Transcription.image self = None →
  (∀ r self' w',
      Transcription.refresh_preview_image self w ≠ (Ok r, self', w')) ∧
  (truthy_str (Transcription.temp_file self) = true →
   Transcription.refresh_preview_image self w = (Raise TypeError, self, w)).
Proof.
  intros Hnone. split.
  - intros r self' w'. unfold Transcription.refresh_preview_image. run.
    destruct (Transcription.get_temp_file self w) as [[rf self1] w1] eqn:Htmp.
    destruct (get_temp_file_frame _ _ _ _ _ Htmp) as (Himage & _).
    destruct rf as [folder|]; [|discriminate].
    unfold Transcription.join_folder, Transcription.open_image.
    destruct folder as [folder|]; simpl; [|discriminate].
    rewrite Himage, Hnone. discriminate.
  - intros Ht. unfold Transcription.refresh_preview_image,
      Transcription.get_temp_file. run. rewrite Ht; simpl.
    destruct (Transcription.temp_file self) as [folder|]; [|discriminate].
    simpl. by rewrite Hnone.
Qed.

(** A failed preview leaves the cache as it was, so the call can be
    repeated: neither [refresh_preview_image] nor [get_preview_image]
    changes [preview_image] when it raises, and [get_preview_image]
    raises only when an image is set and no preview is stored. *)
Theorem preview_failure_keeps_cache (self self' : Transcription.t)
    (w w' : World) (e : exn) :
  (Transcription.refresh_preview_image self w = (Raise e, self', w') →
   Transcription.preview_image self' = Transcription.preview_image self) ∧
  (Transcription.get_preview_image self w = (Raise e, self', w') →
   Transcription.preview_image self' = Transcription.preview_image self ∧
   truthy_str (Transcription.image self) = true ∧
   truthy_str (Transcription.preview_image self) = false).
Proof.
  split; [apply refresh_preview_image_fails|].
  unfold Transcription.get_preview_image. run.
  destruct (truthy_str (Transcription.image self)); simpl; [|discriminate].
  destruct (truthy_str (Transcription.preview_image self)); simpl;
    [discriminate|].
  destruct (Transcription.refresh_preview_image self w)
    as [[rr self1] w1] eqn:Hrefresh.
  destruct rr as [p|e1]; [discriminate|].
  intros [= <- <- <-].
  split; [|done]. exact (refresh_preview_image_fails _ _ _ _ _ Hrefresh).
Qed.

(** A Transcription constructed without an image has no preview:
    [get_preview_image] returns [None] and calls no library. *)
Theorem new_transcription_without_image_has_no_preview (index : Z)
    (transcription : string) (translation : option string)
    (start end_ : option Z) (media : option AudioSegment) (w : World) :
  let new := Transcription.__init__ index transcription translation None
               start end_ media w in
  Transcription.get_preview_image new.1 new.2 = (Ok None, new.1, new.2).
Proof. reflexivity. Qed.

(** [set_image] never completes, on any Transcription and any path: it
    raises, saves nothing, and leaves [image] and [preview_image] as
    they were. *)
Theorem set_image_never_completes (self : Transcription.t)
    (path_to_image : string) (w : World) :
  let out := Transcription.set_image path_to_image self w in
  (∃ e, out.1.1 = Raise e) ∧
  Transcription.image out.1.2 = Transcription.image self ∧
  Transcription.preview_image out.1.2 = Transcription.preview_image self ∧
  filter is_save out.2 = filter is_save w.
Proof.
  unfold Transcription.set_image. run.
  destruct (Image_open _) as [image|e]; simpl.
  - destruct (Transcription.get_temp_file self _) as [[rf self1] w1] eqn:Htmp.
    destruct (get_temp_file_frame _ _ _ _ _ Htmp) as (Himage & Hpreview & _ & Hw).
    rewrite filter_app, app_nil_r in Hw.
    destruct rf as [folder|e]; simpl.
    + destruct folder as [folder|]; simpl; split_and!; by eauto.
    + split_and!; by eauto.
  - split_and!; try by eauto. by rewrite filter_app, app_nil_r.
Qed.

(** The folder of a new [ConverterData]: the first [get_temp_file]
    creates it with one [mkdtemp] and changes nothing else; the second
    returns the same folder and calls nothing. *)
Theorem ConverterData_get_temp_file (EafObject : Type) (w : World)
    (folder : string) :
  let w' := (w ++ [Call_mkdtemp])%list in
  let new := ConverterData.__init__ EafObject in
  let self' := ConverterData.set_temp_file EafObject (Some folder) new in
  tempfile_mkdtemp w' = Ok folder →
  folder ≠ "" →
  ConverterData.get_temp_file EafObject new w = (Ok (Some folder), self', w') ∧
  ConverterData.get_temp_file EafObject self' w' = (Ok (Some folder), self', w').
Proof.
  intros w' new self' Hdir Hfolder.
  unfold ConverterData.get_temp_file. run. fold w'. rewrite Hdir. simpl.
  split; [reflexivity|].
  destruct folder; [congruence | reflexivity].
Qed.
End MorePreviewProperties.

Lemma preview_failure_keeps_cache_witness :
  let P := Reference.platform false in
  let entry :=
    Transcription.mk 3 "word" None (Some "photo.jpg") None (mkUUID "uuid1")
      None None in
  Transcription.preview_image
    (Transcription.refresh_preview_image entry []).1.2 =
    Transcription.preview_image entry ∧
  Transcription.preview_image
    (Transcription.get_preview_image entry []).1.2 =
    Transcription.preview_image entry ∧
  truthy_str (Transcription.image entry) = true ∧
  truthy_str (Transcription.preview_image entry) = false.
Proof.
  intros P entry. split.
  - apply (proj1 (@preview_failure_keeps_cache P entry
                    (Transcription.refresh_preview_image entry []).1.2 []
                    (Transcription.refresh_preview_image entry []).2 OSError)).
    vm_compute; reflexivity.
  - apply (proj2 (@preview_failure_keeps_cache P entry
                    (Transcription.get_preview_image entry []).1.2 []
                    (Transcription.get_preview_image entry []).2 OSError)).
    vm_compute; reflexivity.
Defined.

Lemma get_temp_file_memoized_witness :
  let P := Reference.platform true in
  let entry := Transcription.mk 3 "word" None None None (mkUUID "uuid1") None None in
  let out := Transcription.get_temp_file entry [] in
  Transcription.get_temp_file out.1.2 out.2 =
    (Ok (Some "/tmp/tmp1"), out.1.2, out.2).
Proof.
  intros P entry out.
  apply (proj2 (proj2 (@get_temp_file_memoized P entry out.1.2 [] out.2
                         (Ok (Some "/tmp/tmp1")) eq_refl))
           (Some "/tmp/tmp1") eq_refl).
  reflexivity.
Defined.

Lemma refresh_preview_image_location_witness :
  let P := Reference.platform true in
  let entry :=
    Transcription.mk 3 "word" None (Some "photo.jpg") None (mkUUID "uuid1")
      None None in
  let out := Transcription.refresh_preview_image entry [] in
  ∃ folder,
    let path := os_path_join folder (str_of_UUID (mkUUID "uuid1") ++ ".png") in
    Transcription.temp_file out.1.2 = Some folder ∧
    Some "/tmp/tmp1/uuid1.png" = Some path ∧
    Transcription.preview_image out.1.2 = Some path ∧
    last out.2 = Some (Call_save path "PNG") ∧
    Transcription.image out.1.2 = Transcription.image entry ∧
    Transcription.id out.1.2 = Transcription.id entry.
Proof.
  intros P entry out.
  apply (@refresh_preview_image_location P entry out.1.2 [] out.2
           (Some "/tmp/tmp1/uuid1.png")).
  vm_compute; reflexivity.
Defined.

Lemma refresh_preview_image_without_image_witness :
  let P := Reference.platform true in
  let entry :=
    Transcription.mk 3 "word" None None None (mkUUID "uuid1")
      (Some "/tmp/tmp1") None in
  Transcription.refresh_preview_image entry [] = (Raise TypeError, entry, []).
Proof.
  intros P entry.
  apply (proj2 (@refresh_preview_image_without_image P entry [] eq_refl)).
  reflexivity.
Defined.

Lemma ConverterData_get_temp_file_witness :
  let P := Reference.platform true in
  let new := ConverterData.__init__ unit in
  let self' := ConverterData.set_temp_file unit (Some "/tmp/tmp1") new in
  ConverterData.get_temp_file unit new [] =
    (Ok (Some "/tmp/tmp1"), self', [Call_mkdtemp]) ∧
  ConverterData.get_temp_file unit self' [Call_mkdtemp] =
    (Ok (Some "/tmp/tmp1"), self', [Call_mkdtemp]).
Proof.
  intros P new self'.
  apply (@ConverterData_get_temp_file P unit [] "/tmp/tmp1");
    [reflexivity | discriminate].
Defined.

(** ** AppSettings *)

(** Every settings value is reached from its labels: for each output
    mode and quality level the reverse tables give labels from which
    [AppSettings.__init__] builds exactly that value. *)
Theorem AppSettings_from_own_labels (mode : OutputMode) (mic : string)
    (quality : EncodingQuality) (ffmpeg : option string) :
  ∃ fmt_label quality_label,
    OUTPUT_MODE_NAMES !! OutputMode_value mode = Some fmt_label ∧
    AUDIO_QUALITY_REV !! quality = Some quality_label ∧
    AppSettings.__init__ fmt_label mic quality_label ffmpeg =
      Ok (AppSettings.mk mode mic quality ffmpeg).
Proof.
  destruct mode, quality; eexists _, _;
    (split; [vm_compute; reflexivity|]);
    (split; [vm_compute; reflexivity|]); reflexivity.
Qed.
